(** * Watermarks.js: which watermarks are shown, and where they link to

    A shallow embedding of
    [react/features/base/react/components/web/Watermarks.js]:
    the component's constructor, its three [_render...] methods, [render],
    and [_mapStateToProps], over a small model of the JavaScript values the
    component reads from [interfaceConfig] and from the Redux store. *)

From Stdlib Require Import ZArith.
From stdpp Require Import base strings gmap.

Set Warnings "-register-all".
Local Open Scope string_scope.

(** ** JavaScript values and the operators the component applies to them *)

Module Js.

(** The values that occur in the configuration and in the store slices:
    [undefined], [null], booleans, strings and plain data objects. An object
    is an ordinary object that inherits from [Object.prototype] and is
    given by its own data properties. Numbers, symbols and functions are
    left out: no field the component reads is declared to hold one. *)
Inductive JsVal : Type :=
| JUndefined
| JNull
| JBool (b : bool)
| JStr (s : string)
| JObj (o : gmap string JsVal).

(** ToBoolean, as applied by [if (...)], [!], [&&], [||] and [?:]. *)
Definition truthy (v : JsVal) : bool :=
  match v with
  | JUndefined | JNull => false
  | JBool b => b
  | JStr s => negb (String.eqb s "")
  | JObj _ => true
  end.

(** [!a] *)
Definition js_not (a : JsVal) : JsVal := JBool (negb (truthy a)).

(** [a && b]: the value of [a] when it is falsy, the value of [b] otherwise. *)
Definition js_and (a b : JsVal) : JsVal := if truthy a then b else a.

(** [a || b]: the value of [a] when it is truthy, the value of [b] otherwise. *)
Definition js_or (a b : JsVal) : JsVal := if truthy a then a else b.

(** Evaluation either completes with a value or throws. *)
Inductive JsError : Type := TypeError.

Inductive Completion (A : Type) : Type :=
| Normal (a : A)
| Throw (e : JsError).
Arguments Normal {A} a.
Arguments Throw {A} e.

#[global] Instance Completion_ret : MRet Completion := fun _ a => Normal a.
#[global] Instance Completion_bind : MBind Completion := fun _ _ f m =>
  match m with
  | Normal a => f a
  | Throw e => Throw e
  end.

(** ToString, as applied by a template literal to an interpolated value.
    An object is converted by calling its [toString] and then its [valueOf].
    Without a [toString] of its own it inherits [Object.prototype.toString],
    which answers ["[object Object]"]. With one of its own, which in this
    model is never a function, [toString] is skipped, [valueOf] (its own,
    not callable, or the inherited one, which answers the object itself)
    gives no primitive either, and the conversion throws a TypeError. *)
Definition toString (v : JsVal) : Completion string :=
  match v with
  | JUndefined => Normal "undefined"
  | JNull => Normal "null"
  | JBool true => Normal "true"
  | JBool false => Normal "false"
  | JStr s => Normal s
  | JObj o =>
      match o !! "toString" with
      | Some _ => Throw TypeError
      | None => Normal "[object Object]"
      end
  end.

(** The template literal [`url(${v})`]. *)
Definition url (v : JsVal) : Completion string :=
  s ← toString v; mret ("url(" +:+ s +:+ ")").

(** [o[k]] on an object: a missing property reads as [undefined]. *)
Definition get (o : gmap string JsVal) (k : string) : JsVal :=
  default JUndefined (o !! k).

(** The object whose properties a member access or a destructuring pattern
    reads from [v]: [undefined] and [null] throw a TypeError; a boolean or a
    string is boxed, and its wrapper carries none of the properties this
    component asks for. *)
Definition toObject (v : JsVal) : Completion (gmap string JsVal) :=
  match v with
  | JUndefined | JNull => Throw TypeError
  | JBool _ | JStr _ => Normal ∅
  | JObj o => Normal o
  end.

(** [v.k] *)
Definition member (v : JsVal) (k : string) : Completion JsVal :=
  o ← toObject v; mret (get o k).

End Js.
Import Js.

(** ** The global [interfaceConfig] *)

(** [declare var interfaceConfig: Object]: the eight properties the component
    reads. A property the deployment does not set reads as [JUndefined]. *)
Record InterfaceConfig : Type := {
  filmStripOnly : JsVal;
  SHOW_BRAND_WATERMARK : JsVal;
  BRAND_WATERMARK_LINK : JsVal;
  SHOW_POWERED_BY : JsVal;
  SHOW_JITSI_WATERMARK : JsVal;
  SHOW_JITSI_WATERMARK_FOR_GUESTS : JsVal;
  JITSI_WATERMARK_LINK : JsVal;
  DEFAULT_LOGO_URL : JsVal
}.

(** ** React elements *)

Record Style : Type := {
  backgroundImage : string;
  maxWidth : option Z;
  maxHeight : option Z
}.

Inductive ReactElement : Type :=
| Null
| Text (s : string)
| Div (className : option string) (style : option Style)
      (children : list ReactElement)
| Anchor (className : option string) (href : JsVal) (target : string)
         (children : list ReactElement)
| Span (children : list ReactElement).

(** [_RIGHT_WATERMARK_STYLE] *)
Definition _RIGHT_WATERMARK_STYLE : Style :=
  {| backgroundImage := "url(images/rightwatermark.png)";
     maxWidth := None;
     maxHeight := None |}.

(** ** The component *)

(** [type Props] *)
Record Props : Type := {
  _customLogoLink : JsVal;
  _customLogoUrl : JsVal;
  _useDynamicBrandingData : JsVal;
  _showJitsiWaterMark : JsVal;
  defaultJitsiLogoURL : JsVal;
  t : string -> string
}.

(** [type State] *)
Record State : Type := {
  brandWatermarkLink : JsVal;
  showBrandWatermark : JsVal;
  showPoweredBy : JsVal
}.

(** An instance of the class: [this.props] and [this.state]. *)
Record Watermarks : Type := {
  props : Props;
  state : State
}.

Section Component.

(** The ambient global the methods read. *)
Variable interfaceConfig : InterfaceConfig.

(** [constructor(props)]: the value assigned to [this.state]. *)
Definition constructor (_ : Props) : State :=
  let showBrandWatermark :=
    if truthy (filmStripOnly interfaceConfig)
    then JBool false
    else SHOW_BRAND_WATERMARK interfaceConfig in
  {| brandWatermarkLink :=
       if truthy showBrandWatermark
       then BRAND_WATERMARK_LINK interfaceConfig
       else JStr "";
     showBrandWatermark := showBrandWatermark;
     showPoweredBy := SHOW_POWERED_BY interfaceConfig |}.

(** [new Watermarks(props)] *)
Definition new (p : Props) : Watermarks :=
  {| props := p; state := constructor p |}.

(** [_renderBrandWatermark()] *)
Definition _renderBrandWatermark (this : Watermarks) : ReactElement :=
  let reactElement := Null in
  if truthy (showBrandWatermark (state this)) then
    let reactElement :=
      Div (Some "watermark rightwatermark") (Some _RIGHT_WATERMARK_STYLE) [] in
    let brandWatermarkLink := brandWatermarkLink (state this) in
    if truthy brandWatermarkLink then
      Anchor None brandWatermarkLink "_new" [reactElement]
    else reactElement
  else reactElement.

(** [_renderJitsiWatermark()] *)
Definition _renderJitsiWatermark (this : Watermarks)
  : Completion ReactElement :=
  let _customLogoLink := _customLogoLink (props this) in
  let _customLogoUrl := _customLogoUrl (props this) in
  let _useDynamicBrandingData := _useDynamicBrandingData (props this) in
  let _showJitsiWaterMark := _showJitsiWaterMark (props this) in
  let defaultJitsiLogoURL := defaultJitsiLogoURL (props this) in
  let reactElement := Null in
  if truthy _showJitsiWaterMark then
    '(link, backgroundImage) ←
      (if truthy _useDynamicBrandingData then
         let link := _customLogoLink in
         backgroundImage ← url _customLogoUrl;
         mret (link, backgroundImage)
       else
         let link := JITSI_WATERMARK_LINK interfaceConfig in
         backgroundImage ←
           url (js_or defaultJitsiLogoURL (DEFAULT_LOGO_URL interfaceConfig));
         mret (link, backgroundImage));
    let style :=
      {| backgroundImage := backgroundImage;
         maxWidth := Some 140%Z;
         maxHeight := Some 70%Z |} in
    let reactElement :=
      Div (Some "watermark leftwatermark") (Some style) [] in
    if truthy link then
      mret (Anchor None link "_new" [reactElement])
    else mret reactElement
  else mret reactElement.

(** [_renderPoweredBy()] *)
Definition _renderPoweredBy (this : Watermarks) : ReactElement :=
  if truthy (showPoweredBy (state this)) then
    let t := t (props this) in
    Anchor (Some "poweredby") (JStr "http://jitsi.org") "_new"
           [Span [Text (t "poweredby"); Text " jitsi.org"]]
  else Null.

(** [render()]: the three children are evaluated in order, so a throw in
    [_renderJitsiWatermark] is a throw of [render]. *)
Definition render (this : Watermarks) : Completion ReactElement :=
  jitsiWatermark ← _renderJitsiWatermark this;
  mret (Div None None
          [jitsiWatermark;
           _renderBrandWatermark this;
           _renderPoweredBy this]).

End Component.

(** ** Mapping the Redux store to props *)

(** The object literal [_mapStateToProps] returns. *)
Module Mapped.
Record Props : Type := {
  _customLogoLink : JsVal;
  _customLogoUrl : JsVal;
  _useDynamicBrandingData : JsVal;
  _showJitsiWaterMark : JsVal
}.
End Mapped.

(** [_mapStateToProps(state)]. The store snapshot [state] is an object keyed
    by feature name; each feature slice is whatever value the store holds
    under that key. *)
Definition _mapStateToProps (interfaceConfig : InterfaceConfig)
    (state : gmap string JsVal) : Completion Mapped.Props :=
  jwt ← toObject (get state "features/base/jwt");
  let isGuest := get jwt "isGuest" in
  branding ← toObject (get state "features/dynamic-branding");
  let customizationReady := get branding "customizationReady" in
  let customizationFailed := get branding "customizationFailed" in
  let useDynamicBrandingData := get branding "useDynamicBrandingData" in
  let logoClickUrl := get branding "logoClickUrl" in
  let logoImageUrl := get branding "logoImageUrl" in
  room ← member (get state "features/base/conference") "room";
  let welcomePageVisible := js_not room in
  let SHOW_JITSI_WATERMARK := SHOW_JITSI_WATERMARK interfaceConfig in
  let SHOW_JITSI_WATERMARK_FOR_GUESTS :=
    SHOW_JITSI_WATERMARK_FOR_GUESTS interfaceConfig in
  let filmStripOnly := filmStripOnly interfaceConfig in
  let showJitsiWatermark :=
    js_or
      (js_and
         (js_and (js_not filmStripOnly)
                 (js_and customizationReady (js_not customizationFailed)))
         (js_or SHOW_JITSI_WATERMARK
                (js_and isGuest SHOW_JITSI_WATERMARK_FOR_GUESTS)))
      welcomePageVisible in
  mret {| Mapped._customLogoLink := logoClickUrl;
          Mapped._customLogoUrl := logoImageUrl;
          Mapped._useDynamicBrandingData := useDynamicBrandingData;
          Mapped._showJitsiWaterMark := showJitsiWatermark |}.

(** The props the wrapped component receives from
    [connect(_mapStateToProps)(translate(Watermarks))]: the mapped props,
    the parent's [defaultJitsiLogoURL], and [t] from [translate]. *)
Definition connectProps (t : string -> string) (defaultJitsiLogoURL : JsVal)
    (mapped : Mapped.Props) : Props :=
  {| _customLogoLink := Mapped._customLogoLink mapped;
     _customLogoUrl := Mapped._customLogoUrl mapped;
     _useDynamicBrandingData := Mapped._useDynamicBrandingData mapped;
     _showJitsiWaterMark := Mapped._showJitsiWaterMark mapped;
     defaultJitsiLogoURL := defaultJitsiLogoURL;
     t := t |}.

(** The default export, mounted and rendered against a store snapshot. *)
Definition ConnectedWatermarks (interfaceConfig : InterfaceConfig)
    (t : string -> string) (defaultJitsiLogoURL : JsVal)
    (state : gmap string JsVal) : Completion ReactElement :=
  mapped ← _mapStateToProps interfaceConfig state;
  render interfaceConfig
    (new interfaceConfig (connectProps t defaultJitsiLogoURL mapped)).

(** Every property [_mapStateToProps] reads from the store, with the outcome
    of reading it. *)
Definition storeReads (store : gmap string JsVal) : list (Completion JsVal) :=
  [ member (get store "features/base/jwt") "isGuest";
    member (get store "features/dynamic-branding") "customizationReady";
    member (get store "features/dynamic-branding") "customizationFailed";
    member (get store "features/dynamic-branding") "useDynamicBrandingData";
    member (get store "features/dynamic-branding") "logoClickUrl";
    member (get store "features/dynamic-branding") "logoImageUrl";
    member (get store "features/base/conference") "room" ].

(** A mounted instance re-rendered with new props: the instance keeps its
    [this.state], which no method of the class assigns to after the
    constructor. *)
Definition withProps (this : Watermarks) (p : Props) : Watermarks :=
  {| props := p; state := state this |}.

Definition rerender (interfaceConfig : InterfaceConfig) (this : Watermarks)
    (p : Props) : Watermarks * Completion ReactElement :=
  (withProps this p, render interfaceConfig (withProps this p)).

(** The instance after it has been re-rendered with each of [history] in
    turn. *)
Definition rerenders (interfaceConfig : InterfaceConfig) (this : Watermarks)
    (history : list Props) : Watermarks :=
  fold_left (fun this p => fst (rerender interfaceConfig this p)) history this.

(** ** Reading a rendered slot *)

(** What the renderer shows for one slot. *)
Inductive SlotState : Type :=
| NotVisible
| VisibleNoLink
| VisibleWithLink (href : JsVal).

Definition visible (e : ReactElement) : bool :=
  match e with
  | Null => false
  | _ => true
  end.

Definition slotState (e : ReactElement) : SlotState :=
  match e with
  | Null => NotVisible
  | Anchor _ href _ _ => VisibleWithLink href
  | _ => VisibleNoLink
  end.

(** The badge itself: the element inside the anchor when there is one. *)
Definition badge (e : ReactElement) : ReactElement :=
  match e with
  | Anchor _ _ _ [inner] => inner
  | _ => e
  end.

Definition backgroundImageOf (e : ReactElement) : option string :=
  match badge e with
  | Div _ (Some style) _ => Some (backgroundImage style)
  | _ => None
  end.

(** An element that can stand for a badge: not nothing, not an anchor. *)
Definition isBadge (e : ReactElement) : bool :=
  match e with
  | Div _ _ _ | Span _ => true
  | _ => false
  end.

(** The three states a rendered slot can be in: nothing; a bare badge; a
    badge inside an anchor whose [href] is truthy. An anchor with a falsy
    [href] is in none of them. *)
Inductive InState : ReactElement -> SlotState -> Prop :=
| in_not_visible : InState Null NotVisible
| in_visible_no_link e :
    isBadge e = true -> InState e VisibleNoLink
| in_visible_with_link className href target inner :
    truthy href = true -> isBadge inner = true ->
    InState (Anchor className href target [inner]) (VisibleWithLink href).

(** The three children of the [<div>] that [render] returns. *)
Definition child (i : nat) (e : ReactElement) : ReactElement :=
  match e with
  | Div _ _ children => default Null (children !! i)
  | _ => Null
  end.

Definition productSlot : ReactElement -> ReactElement := child 0.
Definition brandSlot : ReactElement -> ReactElement := child 1.
Definition poweredBySlot : ReactElement -> ReactElement := child 2.

(** The store holds an object (or a boxable primitive) under each of the
    three feature keys [_mapStateToProps] reads through. *)
Definition hasSlices (store jwt branding conference : gmap string JsVal)
  : Prop :=
  toObject (get store "features/base/jwt") = Normal jwt
  /\ toObject (get store "features/dynamic-branding") = Normal branding
  /\ toObject (get store "features/base/conference") = Normal conference.

(** [interfaceConfig] with another [DEFAULT_LOGO_URL]. *)
Definition withDefaultLogoUrl (interfaceConfig : InterfaceConfig)
    (defaultLogoUrl : JsVal) : InterfaceConfig :=
  {| filmStripOnly := filmStripOnly interfaceConfig;
     SHOW_BRAND_WATERMARK := SHOW_BRAND_WATERMARK interfaceConfig;
     BRAND_WATERMARK_LINK := BRAND_WATERMARK_LINK interfaceConfig;
     SHOW_POWERED_BY := SHOW_POWERED_BY interfaceConfig;
     SHOW_JITSI_WATERMARK := SHOW_JITSI_WATERMARK interfaceConfig;
     SHOW_JITSI_WATERMARK_FOR_GUESTS :=
       SHOW_JITSI_WATERMARK_FOR_GUESTS interfaceConfig;
     JITSI_WATERMARK_LINK := JITSI_WATERMARK_LINK interfaceConfig;
     DEFAULT_LOGO_URL := defaultLogoUrl |}.

(** The store with property [key] of its branding slice [branding] set to
    [v]. *)
Definition setBranding (store branding : gmap string JsVal) (key : string)
    (v : JsVal) : gmap string JsVal :=
  <[ "features/dynamic-branding" := JObj (<[ key := v ]> branding) ]> store.

(** An object with property [key] holding [v], or without [key] when [v]
    is [None]. *)
Definition setField (o : gmap string JsVal) (key : string)
    (v : option JsVal) : gmap string JsVal :=
  match v with
  | Some x => <[ key := x ]> o
  | None => delete key o
  end.


(** What reading an optional property gives: its value, or [undefined] when
    it is absent. *)
Definition readOptional (v : option JsVal) : JsVal := default JUndefined v.

(** ** Example inputs *)

Definition exampleConfig : InterfaceConfig :=
  {| filmStripOnly := JBool false;
     SHOW_BRAND_WATERMARK := JBool true;
     BRAND_WATERMARK_LINK := JStr "https://brand.example";
     SHOW_POWERED_BY := JBool true;
     SHOW_JITSI_WATERMARK := JBool true;
     SHOW_JITSI_WATERMARK_FOR_GUESTS := JBool true;
     JITSI_WATERMARK_LINK := JStr "https://jitsi.org";
     DEFAULT_LOGO_URL := JStr "images/watermark.png" |}.

Definition exampleJwt : gmap string JsVal :=
  {[ "isGuest" := JBool true ]}.

Definition exampleBranding : gmap string JsVal :=
  <[ "customizationReady" := JBool true ]>
  (<[ "customizationFailed" := JBool false ]>
  (<[ "useDynamicBrandingData" := JBool true ]>
  (<[ "logoClickUrl" := JStr "https://x/home" ]>
  {[ "logoImageUrl" := JStr "https://x/logo.png" ]}))).

Definition exampleConference : gmap string JsVal :=
  {[ "room" := JStr "standup" ]}.

Definition mkStore (jwt branding conference : JsVal) : gmap string JsVal :=
  <[ "features/base/jwt" := jwt ]>
  (<[ "features/dynamic-branding" := branding ]>
  {[ "features/base/conference" := conference ]}).

Definition exampleStore : gmap string JsVal :=
  mkStore (JObj exampleJwt) (JObj exampleBranding) (JObj exampleConference).

Definition exampleT (key : string) : string := key.

Definition exampleProps : Props :=
  {| _customLogoLink := JStr "https://x/home";
     _customLogoUrl := JStr "https://x/logo.png";
     _useDynamicBrandingData := JBool true;
     _showJitsiWaterMark := JBool true;
     defaultJitsiLogoURL := JUndefined;
     t := exampleT |}.

(** Dynamic branding in use, but no logo image in the branding slice. *)
Definition brandingWithoutImage : gmap string JsVal :=
  delete "logoImageUrl" exampleBranding.

Definition storeWithoutImage : gmap string JsVal :=
  mkStore (JObj exampleJwt) (JObj brandingWithoutImage)
          (JObj exampleConference).

(** A film-strip-only deployment that still names a brand link. *)
Definition filmStripConfig : InterfaceConfig :=
  {| filmStripOnly := JBool true;
     SHOW_BRAND_WATERMARK := JBool true;
     BRAND_WATERMARK_LINK := JStr "https://brand.example";
     SHOW_POWERED_BY := JBool false;
     SHOW_JITSI_WATERMARK := JBool true;
     SHOW_JITSI_WATERMARK_FOR_GUESTS := JBool true;
     JITSI_WATERMARK_LINK := JStr "https://jitsi.org";
     DEFAULT_LOGO_URL := JStr "images/watermark.png" |}.

(** The example store with an unrelated feature slice and an unrelated
    branding property added. *)
Definition exampleStoreWithExtras : gmap string JsVal :=
  <[ "features/base/settings" := JObj {[ "displayName" := JStr "Ann" ]} ]>
  (mkStore (JObj exampleJwt)
           (JObj (<[ "backgroundColor" := JStr "#fff" ]> exampleBranding))
           (JObj exampleConference)).

(** ** Further readings of values, trees and stores *)

(** An object with a [toString] property of its own: in this model the one
    kind of value a template literal cannot convert. *)
Definition hasOwnToString (v : JsVal) : bool :=
  match v with
  | JObj o =>
      match o !! "toString" with
      | Some _ => true
      | None => false
      end
  | _ => false
  end.

(** The link [_renderJitsiWatermark] chooses for a shown product slot. *)
Definition chosenLink (interfaceConfig : InterfaceConfig) (p : Props)
  : JsVal :=
  if truthy (_useDynamicBrandingData p) then _customLogoLink p
  else JITSI_WATERMARK_LINK interfaceConfig.

(** The value it interpolates into the background image. *)
Definition chosenLogo (interfaceConfig : InterfaceConfig) (p : Props)
  : JsVal :=
  if truthy (_useDynamicBrandingData p) then _customLogoUrl p
  else js_or (defaultJitsiLogoURL p) (DEFAULT_LOGO_URL interfaceConfig).

(** The same two choices, read off the store. *)
Definition storeLink (interfaceConfig : InterfaceConfig)
    (branding : gmap string JsVal) : JsVal :=
  if truthy (get branding "useDynamicBrandingData")
  then get branding "logoClickUrl"
  else JITSI_WATERMARK_LINK interfaceConfig.

Definition storeLogo (interfaceConfig : InterfaceConfig)
    (defaultLogo : JsVal) (branding : gmap string JsVal) : JsVal :=
  if truthy (get branding "useDynamicBrandingData")
  then get branding "logoImageUrl"
  else if truthy defaultLogo then defaultLogo
       else DEFAULT_LOGO_URL interfaceConfig.

(** The rule for the product slot, read off the store. *)
Definition productShown (interfaceConfig : InterfaceConfig)
    (jwt branding conference : gmap string JsVal) : bool :=
  negb (truthy (filmStripOnly interfaceConfig))
  && (truthy (get branding "customizationReady")
      && negb (truthy (get branding "customizationFailed")))
  && (truthy (SHOW_JITSI_WATERMARK interfaceConfig)
      || (truthy (get jwt "isGuest")
          && truthy (SHOW_JITSI_WATERMARK_FOR_GUESTS interfaceConfig)))
  || negb (truthy (get conference "room")).


(** [typeof v === 'boolean'] *)
Definition isBoolean (v : JsVal) : bool :=
  match v with
  | JBool _ => true
  | _ => false
  end.

(** Every [<a>] of a tree, outermost first, with its [href] and [target]. *)
Fixpoint anchors (e : ReactElement) : list (JsVal * string) :=
  match e with
  | Null | Text _ => []
  | Div _ _ children => flat_map anchors children
  | Anchor _ href target children =>
      (href, target) :: flat_map anchors children
  | Span children => flat_map anchors children
  end.

(** One slot of a render that may have thrown. *)
Definition onSlot (slot : ReactElement -> ReactElement)
    (rendered : Completion ReactElement) : Completion ReactElement :=
  tree ← rendered; mret (slot tree).

(** The store with property [key] of its jwt slice [jwt] present with a
    value, or absent. *)
Definition withJwtField (store jwt : gmap string JsVal) (key : string)
    (v : option JsVal) : gmap string JsVal :=
  <[ "features/base/jwt" := JObj (setField jwt key v) ]> store.

(** [interfaceConfig] with each of its five flags replaced by the boolean it
    is read as. *)
Definition booleanFlags (interfaceConfig : InterfaceConfig)
  : InterfaceConfig :=
  {| filmStripOnly := JBool (truthy (filmStripOnly interfaceConfig));
     SHOW_BRAND_WATERMARK :=
       JBool (truthy (SHOW_BRAND_WATERMARK interfaceConfig));
     BRAND_WATERMARK_LINK := BRAND_WATERMARK_LINK interfaceConfig;
     SHOW_POWERED_BY := JBool (truthy (SHOW_POWERED_BY interfaceConfig));
     SHOW_JITSI_WATERMARK :=
       JBool (truthy (SHOW_JITSI_WATERMARK interfaceConfig));
     SHOW_JITSI_WATERMARK_FOR_GUESTS :=
       JBool (truthy (SHOW_JITSI_WATERMARK_FOR_GUESTS interfaceConfig));
     JITSI_WATERMARK_LINK := JITSI_WATERMARK_LINK interfaceConfig;
     DEFAULT_LOGO_URL := DEFAULT_LOGO_URL interfaceConfig |}.

(** A deployment with the brand settings of [exampleConfig] that shows the
    product mark to guests only and no powered-by credit. *)
Definition guestsOnlyConfig : InterfaceConfig :=
  {| filmStripOnly := JBool false;
     SHOW_BRAND_WATERMARK := JBool true;
     BRAND_WATERMARK_LINK := JStr "https://brand.example";
     SHOW_POWERED_BY := JBool false;
     SHOW_JITSI_WATERMARK := JBool false;
     SHOW_JITSI_WATERMARK_FOR_GUESTS := JBool true;
     JITSI_WATERMARK_LINK := JStr "";
     DEFAULT_LOGO_URL := JStr "images/other.png" |}.

(** The example store with its flags written as other values that are
    equally truthy. *)
Definition stringlyJwt : gmap string JsVal :=
  {[ "isGuest" := JStr "anonymous" ]}.

Definition stringlyBranding : gmap string JsVal :=
  <[ "customizationReady" := JStr "done" ]>
  (<[ "useDynamicBrandingData" := JObj ∅ ]>
  (<[ "logoClickUrl" := JStr "https://x/home" ]>
  {[ "logoImageUrl" := JStr "https://x/logo.png" ]})).

Definition stringlyConference : gmap string JsVal :=
  {[ "room" := JStr "retro" ]}.

Definition stringlyStore : gmap string JsVal :=
  mkStore (JObj stringlyJwt) (JObj stringlyBranding)
          (JObj stringlyConference).




(** A translator that knows one key. *)
Definition englishT (key : string) : string :=
  if String.eqb key "poweredby" then "powered by" else key.

(** Another one that agrees with it on that key only. *)
Definition otherT (key : string) : string :=
  if String.eqb key "poweredby" then "powered by" else "?".

(** ** Truthiness commutes with the operators *)

Lemma truthy_not a : truthy (js_not a) = negb (truthy a).
Proof. reflexivity. Qed.

Lemma truthy_and a b : truthy (js_and a b) = truthy a && truthy b.
Proof. unfold js_and. destruct (truthy a) eqn:E; simpl; auto. Qed.

Lemma truthy_or a b : truthy (js_or a b) = truthy a || truthy b.
Proof. unfold js_or. destruct (truthy a) eqn:E; simpl; auto. Qed.

Lemma js_or_falsy_l a b : truthy a = false -> js_or a b = b.
Proof. unfold js_or. now intros ->. Qed.

Lemma truthy_JStr s : truthy (JStr s) = true <-> s <> "".
Proof.
  simpl. destruct (String.eqb_spec s ""); simpl; split; congruence.
Qed.

(** The mapped flag is as truthy as the rule for the product slot says. *)
Lemma truthy_flag notFilmStrip ready notFailed show guest forGuests welcome :
  truthy
    (js_or (js_and (js_and notFilmStrip (js_and ready notFailed))
                   (js_or show (js_and guest forGuests)))
           welcome)
  = (truthy notFilmStrip && (truthy ready && truthy notFailed)
     && (truthy show || (truthy guest && truthy forGuests))
     || truthy welcome).
Proof.
  now rewrite truthy_or, !truthy_and, truthy_or, truthy_and.
Qed.

(** ** Interpolating a value *)

Lemma toString_throws v :
  toString v = Throw TypeError <-> hasOwnToString v = true.
Proof.
  destruct v as [| |[|]|s|o]; cbn; try (split; discriminate).
  destruct (o !! "toString"); split; auto; discriminate.
Qed.

Lemma toString_returns v :
  hasOwnToString v = false <-> exists s, toString v = Normal s.
Proof.
  destruct v as [| |[|]|s|o]; cbn; try (split; eauto; fail).
  destruct (o !! "toString"); split; eauto; try discriminate.
  intros [s' H]. discriminate.
Qed.

Lemma url_returns v s :
  toString v = Normal s -> url v = Normal ("url(" +:+ s +:+ ")").
Proof. unfold url. now intros ->. Qed.

Lemma url_throws v : hasOwnToString v = true -> url v = Throw TypeError.
Proof. intros H. apply toString_throws in H. unfold url. now rewrite H. Qed.

(** ** The product slot, method by method *)

(** [_renderJitsiWatermark] over the link and the logo it chooses. *)
Lemma renderJitsiWatermark_eq interfaceConfig this :
  _renderJitsiWatermark interfaceConfig this
  = if truthy (_showJitsiWaterMark (props this)) then
      backgroundImage ← url (chosenLogo interfaceConfig (props this));
      mret (let badge :=
              Div (Some "watermark leftwatermark")
                  (Some {| backgroundImage := backgroundImage;
                           maxWidth := Some 140%Z;
                           maxHeight := Some 70%Z |}) [] in
            if truthy (chosenLink interfaceConfig (props this))
            then Anchor None (chosenLink interfaceConfig (props this))
                        "_new" [badge]
            else badge)
    else Normal Null.
Proof.
  unfold _renderJitsiWatermark, chosenLogo, chosenLink.
  destruct (truthy (_showJitsiWaterMark (props this))); [|reflexivity].
  destruct (truthy (_useDynamicBrandingData (props this)));
    match goal with |- context [url ?v] => destruct (url v) as [image|e] end;
    cbn; try reflexivity;
    match goal with |- context [if truthy ?l then _ else _] =>
      destruct (truthy l) end; reflexivity.
Qed.

(** A slot that is not to be shown renders as nothing, and nothing is
    interpolated. *)
Lemma renderJitsiWatermark_hidden interfaceConfig this :
  truthy (_showJitsiWaterMark (props this)) = false ->
  _renderJitsiWatermark interfaceConfig this = Normal Null.
Proof. intros H. now rewrite renderJitsiWatermark_eq, H. Qed.

(** A slot that is to be shown, with a logo that converts. *)
Lemma renderJitsiWatermark_shown interfaceConfig this s :
  truthy (_showJitsiWaterMark (props this)) = true ->
  toString (chosenLogo interfaceConfig (props this)) = Normal s ->
  exists e,
    _renderJitsiWatermark interfaceConfig this = Normal e
    /\ slotState e
       = (if truthy (chosenLink interfaceConfig (props this))
          then VisibleWithLink (chosenLink interfaceConfig (props this))
          else VisibleNoLink)
    /\ badge e
       = Div (Some "watermark leftwatermark")
             (Some {| backgroundImage := "url(" +:+ s +:+ ")";
                      maxWidth := Some 140%Z;
                      maxHeight := Some 70%Z |}) [].
Proof.
  intros Hshow Hs. rewrite renderJitsiWatermark_eq, Hshow.
  rewrite (url_returns _ _ Hs). cbn [mbind Completion_bind mret Completion_ret].
  eexists. split; [reflexivity|].
  destruct (truthy (chosenLink interfaceConfig (props this)));
    split; reflexivity.
Qed.

(** The method throws exactly when the slot is to be shown and the logo
    does not convert. *)
Lemma renderJitsiWatermark_throws interfaceConfig this :
  _renderJitsiWatermark interfaceConfig this = Throw TypeError
  <-> truthy (_showJitsiWaterMark (props this)) = true
      /\ hasOwnToString (chosenLogo interfaceConfig (props this)) = true.
Proof.
  rewrite renderJitsiWatermark_eq.
  destruct (truthy (_showJitsiWaterMark (props this))).
  - destruct (hasOwnToString (chosenLogo interfaceConfig (props this)))
      eqn:Hown.
    + rewrite (url_throws _ Hown). cbn. tauto.
    + apply toString_returns in Hown as [s Hs].
      rewrite (url_returns _ _ Hs). cbn. split; [discriminate|].
      intros [_ H]. discriminate.
  - split; [discriminate|]. intros [H _]. discriminate.
Qed.

(** What it returns is shown exactly when the flag is truthy. *)
Lemma renderJitsiWatermark_visible interfaceConfig this e :
  _renderJitsiWatermark interfaceConfig this = Normal e ->
  visible e = truthy (_showJitsiWaterMark (props this)).
Proof.
  rewrite renderJitsiWatermark_eq.
  destruct (truthy (_showJitsiWaterMark (props this))).
  - destruct (url (chosenLogo interfaceConfig (props this))) as [image|err];
      cbn; [|discriminate].
    intros [= <-].
    destruct (truthy (chosenLink interfaceConfig (props this))); reflexivity.
  - now intros [= <-].
Qed.

(** The method looks at the flag only through its truthiness. *)
Lemma renderJitsiWatermark_flag interfaceConfig t defaultLogo link image dyn
    shown shown' :
  truthy shown = truthy shown' ->
  _renderJitsiWatermark interfaceConfig
    (new interfaceConfig
       (connectProps t defaultLogo
          {| Mapped._customLogoLink := link;
             Mapped._customLogoUrl := image;
             Mapped._useDynamicBrandingData := dyn;
             Mapped._showJitsiWaterMark := shown |}))
  = _renderJitsiWatermark interfaceConfig
      (new interfaceConfig
         (connectProps t defaultLogo
            {| Mapped._customLogoLink := link;
               Mapped._customLogoUrl := image;
               Mapped._useDynamicBrandingData := dyn;
               Mapped._showJitsiWaterMark := shown' |})).
Proof.
  intros Heq. rewrite !renderJitsiWatermark_eq. cbn. now rewrite Heq.
Qed.

(** [render] returns exactly when [_renderJitsiWatermark] does, and its
    three children are what the three methods return. *)
Lemma render_returns interfaceConfig this tree :
  render interfaceConfig this = Normal tree
  <-> exists e,
        _renderJitsiWatermark interfaceConfig this = Normal e
        /\ tree = Div None None
                    [e; _renderBrandWatermark this; _renderPoweredBy this].
Proof.
  unfold render.
  destruct (_renderJitsiWatermark interfaceConfig this) as [e|err]; cbn.
  - split; [intros [= <-]; eauto|]. now intros (e' & [= <-] & ->).
  - split; [discriminate|]. intros (e' & H & _). discriminate.
Qed.

Lemma render_throws interfaceConfig this :
  render interfaceConfig this = Throw TypeError
  <-> _renderJitsiWatermark interfaceConfig this = Throw TypeError.
Proof.
  unfold render.
  destruct (_renderJitsiWatermark interfaceConfig this) as [e|[]]; cbn;
    split; auto; discriminate.
Qed.

(** [render] over mapped props that differ only in what the product slot
    makes of them. *)
Lemma render_product_only interfaceConfig t defaultLogo mapped mapped' :
  _renderJitsiWatermark interfaceConfig
    (new interfaceConfig (connectProps t defaultLogo mapped))
  = _renderJitsiWatermark interfaceConfig
      (new interfaceConfig (connectProps t defaultLogo mapped')) ->
  render interfaceConfig
    (new interfaceConfig (connectProps t defaultLogo mapped))
  = render interfaceConfig
      (new interfaceConfig (connectProps t defaultLogo mapped')).
Proof. unfold render. now intros ->. Qed.

(** ** The store as [_mapStateToProps] reads it *)

Section Store.

Variable interfaceConfig : InterfaceConfig.
Variable t : string -> string.
Variable defaultLogo : JsVal.
Variable store : gmap string JsVal.
Variables jwt branding conference : gmap string JsVal.

Hypothesis Hslices : hasSlices store jwt branding conference.

(** [_mapStateToProps] written out over the three slices. *)
Lemma mapStateToProps_eq :
  _mapStateToProps interfaceConfig store
  = Normal
      {| Mapped._customLogoLink := get branding "logoClickUrl";
         Mapped._customLogoUrl := get branding "logoImageUrl";
         Mapped._useDynamicBrandingData :=
           get branding "useDynamicBrandingData";
         Mapped._showJitsiWaterMark :=
           js_or
             (js_and
                (js_and (js_not (filmStripOnly interfaceConfig))
                   (js_and (get branding "customizationReady")
                           (js_not (get branding "customizationFailed"))))
                (js_or (SHOW_JITSI_WATERMARK interfaceConfig)
                   (js_and (get jwt "isGuest")
                      (SHOW_JITSI_WATERMARK_FOR_GUESTS interfaceConfig))))
             (js_not (get conference "room")) |}.
Proof.
  destruct Hslices as (Hjwt & Hbranding & Hconference).
  unfold _mapStateToProps, member.
  now rewrite Hjwt, Hbranding, Hconference.
Qed.

(** With the three feature slices in place, [_mapStateToProps] completes, and
    the flag it maps is truthy exactly when the rule for the product slot
    holds. *)
Lemma mapStateToProps_slices :
  exists mapped,
    _mapStateToProps interfaceConfig store = Normal mapped
    /\ Mapped._customLogoLink mapped = get branding "logoClickUrl"
    /\ Mapped._customLogoUrl mapped = get branding "logoImageUrl"
    /\ Mapped._useDynamicBrandingData mapped
       = get branding "useDynamicBrandingData"
    /\ truthy (Mapped._showJitsiWaterMark mapped)
       = productShown interfaceConfig jwt branding conference.
Proof.
  eexists. split; [apply mapStateToProps_eq|].
  cbn [Mapped._customLogoLink Mapped._customLogoUrl
       Mapped._useDynamicBrandingData Mapped._showJitsiWaterMark].
  repeat split. unfold productShown.
  now rewrite truthy_flag, !truthy_not.
Qed.

(** The connected component written out over the three slices. *)
Lemma connected_eq :
  ConnectedWatermarks interfaceConfig t defaultLogo store
  = render interfaceConfig
      (new interfaceConfig
         (connectProps t defaultLogo
            {| Mapped._customLogoLink := get branding "logoClickUrl";
               Mapped._customLogoUrl := get branding "logoImageUrl";
               Mapped._useDynamicBrandingData :=
                 get branding "useDynamicBrandingData";
               Mapped._showJitsiWaterMark :=
                 js_or
                   (js_and
                      (js_and (js_not (filmStripOnly interfaceConfig))
                         (js_and (get branding "customizationReady")
                            (js_not
                               (get branding "customizationFailed"))))
                      (js_or (SHOW_JITSI_WATERMARK interfaceConfig)
                         (js_and (get jwt "isGuest")
                            (SHOW_JITSI_WATERMARK_FOR_GUESTS
                               interfaceConfig))))
                   (js_not (get conference "room")) |})).
Proof.
  unfold ConnectedWatermarks. now rewrite mapStateToProps_eq.
Qed.

(** The instance the connected component renders, by what its props
    hold. *)
Lemma connected_instance :
  exists p,
    ConnectedWatermarks interfaceConfig t defaultLogo store
    = render interfaceConfig (new interfaceConfig p)
    /\ truthy (_showJitsiWaterMark p)
       = productShown interfaceConfig jwt branding conference
    /\ chosenLink interfaceConfig p = storeLink interfaceConfig branding
    /\ chosenLogo interfaceConfig p
       = storeLogo interfaceConfig defaultLogo branding.
Proof.
  eexists. split; [apply connected_eq|].
  cbn [connectProps _showJitsiWaterMark Mapped._showJitsiWaterMark].
  split; [|split; reflexivity].
  unfold productShown. now rewrite truthy_flag, !truthy_not.
Qed.

(** What the connected component returns, slot by slot. *)
Lemma connected_returns tree :
  ConnectedWatermarks interfaceConfig t defaultLogo store = Normal tree ->
  exists p,
    _renderJitsiWatermark interfaceConfig (new interfaceConfig p)
    = Normal (productSlot tree)
    /\ brandSlot tree = _renderBrandWatermark (new interfaceConfig p)
    /\ poweredBySlot tree = _renderPoweredBy (new interfaceConfig p)
    /\ truthy (_showJitsiWaterMark p)
       = productShown interfaceConfig jwt branding conference
    /\ chosenLink interfaceConfig p = storeLink interfaceConfig branding
    /\ chosenLogo interfaceConfig p
       = storeLogo interfaceConfig defaultLogo branding.
Proof.
  destruct connected_instance as (p & Hc & Hshown & Hlink & Hlogo).
  rewrite Hc. intros Hr. apply render_returns in Hr as (e & He & ->).
  exists p. repeat split; assumption.
Qed.

(** The connected component returns when the product slot is not to be
    shown or the logo converts, and throws otherwise. *)
Lemma connected_completes :
  (productShown interfaceConfig jwt branding conference = false
   \/ hasOwnToString (storeLogo interfaceConfig defaultLogo branding) = false
   <-> exists tree,
         ConnectedWatermarks interfaceConfig t defaultLogo store
         = Normal tree)
  /\ (productShown interfaceConfig jwt branding conference = true
      /\ hasOwnToString (storeLogo interfaceConfig defaultLogo branding)
         = true
      <-> ConnectedWatermarks interfaceConfig t defaultLogo store
          = Throw TypeError).
Proof.
  destruct connected_instance as (p & Hc & Hshown & _ & Hlogo).
  rewrite Hc, render_throws, renderJitsiWatermark_throws.
  cbn [props new]. rewrite Hshown, Hlogo. split; [|tauto].
  destruct (render interfaceConfig (new interfaceConfig p)) as [tree|[]]
    eqn:Hr.
  - split; [eauto|]. intros _.
    destruct (productShown interfaceConfig jwt branding conference) eqn:Hs;
      [|auto].
    destruct (hasOwnToString
                (storeLogo interfaceConfig defaultLogo branding)) eqn:Ho;
      [|auto].
    assert (render interfaceConfig (new interfaceConfig p) = Throw TypeError)
      as Habs.
    { apply render_throws, renderJitsiWatermark_throws.
      cbn [props new]. now rewrite Hshown, Hlogo. }
    congruence.
  - apply render_throws, renderJitsiWatermark_throws in Hr.
    cbn [props new] in Hr. rewrite Hshown, Hlogo in Hr.
    destruct Hr as [-> ->]. split; [intros [?|?]; discriminate|].
    intros [tree H]. discriminate.
Qed.

End Store.

(** ** The product slot *)

(** C1: the product slot is visible exactly when
    (not filmStripOnly, and customization is ready and has not failed, and
    SHOW_JITSI_WATERMARK or (isGuest and SHOW_JITSI_WATERMARK_FOR_GUESTS))
    or no room is active: the flag [_mapStateToProps] maps is truthy exactly
    then, and so is the product slot of every tree the component returns.
    The component returns whenever the slot is not to be shown or the logo
    it has to interpolate converts to a string. In particular, with no room
    active the slot is to be shown whatever the other flags are. *)
Theorem product_slot_visibility interfaceConfig t defaultLogo
    (store jwt branding conference : gmap string JsVal) :
  hasSlices store jwt branding conference ->
  let shown :=
    negb (truthy (filmStripOnly interfaceConfig))
    && (truthy (get branding "customizationReady")
        && negb (truthy (get branding "customizationFailed")))
    && (truthy (SHOW_JITSI_WATERMARK interfaceConfig)
        || (truthy (get jwt "isGuest")
            && truthy (SHOW_JITSI_WATERMARK_FOR_GUESTS interfaceConfig)))
    || negb (truthy (get conference "room")) in
  (exists mapped,
      _mapStateToProps interfaceConfig store = Normal mapped
      /\ truthy (Mapped._showJitsiWaterMark mapped) = shown)
  /\ (forall tree,
        ConnectedWatermarks interfaceConfig t defaultLogo store
        = Normal tree ->
        visible (productSlot tree) = shown)
  /\ (shown = false
      \/ hasOwnToString (storeLogo interfaceConfig defaultLogo branding)
         = false ->
      exists tree,
        ConnectedWatermarks interfaceConfig t defaultLogo store
        = Normal tree
        /\ visible (productSlot tree) = shown)
  /\ (truthy (get conference "room") = false -> shown = true).
Proof.
  intros Hs shown.
  change shown with (productShown interfaceConfig jwt branding conference).
  assert (Hvisible : forall tree,
            ConnectedWatermarks interfaceConfig t defaultLogo store
            = Normal tree ->
            visible (productSlot tree)
            = productShown interfaceConfig jwt branding conference).
  { intros tree Hc.
    destruct (connected_returns interfaceConfig t defaultLogo _ _ _ _ Hs
                tree Hc) as (p & Hp & _ & _ & Hshown & _).
    now rewrite (renderJitsiWatermark_visible _ _ _ Hp). }
  split; [|split; [exact Hvisible|split]].
  - destruct (mapStateToProps_slices interfaceConfig _ _ _ _ Hs)
      as (mapped & Hm & _ & _ & _ & Hshown).
    eauto.
  - intros Hcompletes.
    apply (connected_completes interfaceConfig t defaultLogo _ _ _ _ Hs)
      in Hcompletes as [tree Hc].
    eauto.
  - intros Hroom. unfold productShown. rewrite Hroom. apply orb_true_r.
Qed.

Lemma product_slot_visibility_witness :
  hasSlices exampleStore exampleJwt exampleBranding exampleConference
  /\ exists tree,
      ConnectedWatermarks exampleConfig exampleT JUndefined exampleStore
      = Normal tree
      /\ visible (productSlot tree) = true.
Proof.
  split; [repeat split|].
  destruct (product_slot_visibility exampleConfig exampleT JUndefined
              exampleStore exampleJwt exampleBranding exampleConference)
    as (_ & _ & Hreturns & _); [repeat split|].
  destruct Hreturns as (tree & Hc & Hv); [right; reflexivity|].
  exists tree. split; [exact Hc|]. exact Hv.
Defined.

(** A product slot that was returned and is shown: its state and image in
    terms of the store. *)
Lemma product_slot_image_of_store interfaceConfig t defaultLogo
    (store jwt branding conference : gmap string JsVal) :
  hasSlices store jwt branding conference ->
  forall tree,
    ConnectedWatermarks interfaceConfig t defaultLogo store = Normal tree ->
    visible (productSlot tree) = true ->
    exists s,
      toString (storeLogo interfaceConfig defaultLogo branding) = Normal s
      /\ backgroundImageOf (productSlot tree) = Some ("url(" +:+ s +:+ ")")
      /\ slotState (productSlot tree)
         = (if truthy (storeLink interfaceConfig branding)
            then VisibleWithLink (storeLink interfaceConfig branding)
            else VisibleNoLink).
Proof.
  intros Hs tree Hc Hv.
  destruct (connected_returns interfaceConfig t defaultLogo _ _ _ _ Hs
              tree Hc) as (p & Hp & _ & _ & Hshown & Hlink & Hlogo).
  rewrite (renderJitsiWatermark_visible _ _ _ Hp) in Hv.
  cbn [props new] in Hv.
  destruct (hasOwnToString (chosenLogo interfaceConfig p)) eqn:Hown.
  { assert (_renderJitsiWatermark interfaceConfig (new interfaceConfig p)
            = Throw TypeError) as Habs
      by (apply renderJitsiWatermark_throws; auto).
    congruence. }
  apply toString_returns in Hown as [s Hstr].
  destruct (renderJitsiWatermark_shown interfaceConfig
              (new interfaceConfig p) s Hv Hstr) as (e & He & Hst & Hb).
  assert (e = productSlot tree) as -> by congruence.
  cbn [props new] in Hst. rewrite Hlink in Hst. rewrite Hlogo in Hstr.
  exists s. split; [exact Hstr|]. split; [|exact Hst].
  unfold backgroundImageOf. now rewrite Hb.
Qed.

(** C4: when the product slot is visible, with dynamic branding in use the
    link is logoClickUrl (an empty one leaves the badge unwrapped) and the
    background image references logoImageUrl; otherwise the link is
    JITSI_WATERMARK_LINK and the image references the caller's default logo
    URL, or DEFAULT_LOGO_URL when the caller supplies none. This holds of
    every tree the component returns, and it returns whenever the chosen
    logo converts to a string. *)
Theorem product_slot_link_and_image interfaceConfig t defaultLogo
    (store jwt branding conference : gmap string JsVal) :
  hasSlices store jwt branding conference ->
  let link :=
    if truthy (get branding "useDynamicBrandingData")
    then get branding "logoClickUrl"
    else JITSI_WATERMARK_LINK interfaceConfig in
  let image :=
    if truthy (get branding "useDynamicBrandingData")
    then get branding "logoImageUrl"
    else if truthy defaultLogo then defaultLogo
         else DEFAULT_LOGO_URL interfaceConfig in
  (forall tree,
      ConnectedWatermarks interfaceConfig t defaultLogo store = Normal tree ->
      visible (productSlot tree) = true ->
      slotState (productSlot tree)
      = (if truthy link then VisibleWithLink link else VisibleNoLink)
      /\ exists s,
          toString image = Normal s
          /\ backgroundImageOf (productSlot tree)
             = Some ("url(" +:+ s +:+ ")"))
  /\ (forall s,
        toString image = Normal s ->
        exists tree,
          ConnectedWatermarks interfaceConfig t defaultLogo store
          = Normal tree).
Proof.
  intros Hs link image.
  change link with (storeLink interfaceConfig branding).
  change image with (storeLogo interfaceConfig defaultLogo branding).
  split.
  - intros tree Hc Hv.
    destruct (product_slot_image_of_store interfaceConfig t defaultLogo
                _ _ _ _ Hs tree Hc Hv) as (s & Hstr & Hbg & Hst).
    split; [exact Hst|]. eauto.
  - intros s Hstr.
    apply (connected_completes interfaceConfig t defaultLogo _ _ _ _ Hs).
    right. apply toString_returns. eauto.
Qed.

Lemma product_slot_link_and_image_witness :
  hasSlices exampleStore exampleJwt exampleBranding exampleConference
  /\ exists tree,
      ConnectedWatermarks exampleConfig exampleT JUndefined exampleStore
      = Normal tree
      /\ visible (productSlot tree) = true
      /\ slotState (productSlot tree)
         = VisibleWithLink (JStr "https://x/home")
      /\ backgroundImageOf (productSlot tree)
         = Some "url(https://x/logo.png)".
Proof.
  split.
  - repeat split.
  - destruct (product_slot_link_and_image exampleConfig exampleT JUndefined
                exampleStore exampleJwt exampleBranding exampleConference)
      as (Hshown & Hreturns).
    + repeat split.
    + destruct (Hreturns "https://x/logo.png" eq_refl) as (tree & Hc).
      exists tree. split; [exact Hc|].
      destruct (Hshown tree Hc) as (Hst & s & Hstr & Hbg).
      * vm_compute in Hc. injection Hc as <-. reflexivity.
      * split; [vm_compute in Hc; injection Hc as <-; reflexivity|].
        split; [exact Hst|].
        vm_compute in Hstr. injection Hstr as <-. exact Hbg.
Defined.

(** C10: with the product slot visible and dynamic branding in use, the
    background image is the interpolation of logoImageUrl into url(...): a
    missing or undefined logoImageUrl gives the literal "url(undefined)", and
    neither the caller's default logo URL nor DEFAULT_LOGO_URL has any part
    in the slot. *)
Theorem dynamic_image_is_interpolated interfaceConfig t defaultLogo
    (store jwt branding conference : gmap string JsVal) :
  hasSlices store jwt branding conference ->
  truthy (get branding "useDynamicBrandingData") = true ->
  (forall tree,
      ConnectedWatermarks interfaceConfig t defaultLogo store = Normal tree ->
      visible (productSlot tree) = true ->
      exists s,
        toString (get branding "logoImageUrl") = Normal s
        /\ backgroundImageOf (productSlot tree)
           = Some ("url(" +:+ s +:+ ")"))
  /\ (branding !! "logoImageUrl" = None
      \/ branding !! "logoImageUrl" = Some JUndefined ->
      exists tree,
        ConnectedWatermarks interfaceConfig t defaultLogo store = Normal tree
        /\ (visible (productSlot tree) = true ->
            backgroundImageOf (productSlot tree) = Some "url(undefined)"))
  /\ (forall defaultLogo' defaultLogoUrl',
        onSlot productSlot
          (ConnectedWatermarks
             (withDefaultLogoUrl interfaceConfig defaultLogoUrl')
             t defaultLogo' store)
        = onSlot productSlot
            (ConnectedWatermarks interfaceConfig t defaultLogo store)).
Proof.
  intros Hs Hdyn.
  assert (Hshown : forall tree,
            ConnectedWatermarks interfaceConfig t defaultLogo store
            = Normal tree ->
            visible (productSlot tree) = true ->
            exists s,
              toString (get branding "logoImageUrl") = Normal s
              /\ backgroundImageOf (productSlot tree)
                 = Some ("url(" +:+ s +:+ ")")).
  { intros tree Hc Hv.
    destruct (product_slot_image_of_store interfaceConfig t defaultLogo
                _ _ _ _ Hs tree Hc Hv) as (s & Hstr & Hbg & _).
    unfold storeLogo in Hstr. rewrite Hdyn in Hstr. eauto. }
  split; [exact Hshown|split].
  - intros Habsent.
    assert (Hget : get branding "logoImageUrl" = JUndefined)
      by (unfold get; destruct Habsent as [-> | ->]; reflexivity).
    destruct (proj1 (proj1 (connected_completes interfaceConfig t
                              defaultLogo _ _ _ _ Hs))) as [tree Hc].
    { right. unfold storeLogo. now rewrite Hdyn, Hget. }
    exists tree. split; [exact Hc|]. intros Hv.
    destruct (Hshown tree Hc Hv) as (s & Hstr & Hbg).
    rewrite Hget in Hstr. injection Hstr as <-. exact Hbg.
  - intros defaultLogo' defaultLogoUrl'.
    rewrite (connected_eq interfaceConfig t defaultLogo _ _ _ _ Hs).
    rewrite (connected_eq (withDefaultLogoUrl interfaceConfig defaultLogoUrl')
               t defaultLogo' _ _ _ _ Hs).
    unfold onSlot, render. rewrite !renderJitsiWatermark_eq.
    unfold chosenLogo, chosenLink.
    cbn [props new connectProps _useDynamicBrandingData _customLogoLink
         _customLogoUrl _showJitsiWaterMark
         Mapped._useDynamicBrandingData Mapped._customLogoLink
         Mapped._customLogoUrl Mapped._showJitsiWaterMark
         withDefaultLogoUrl filmStripOnly SHOW_JITSI_WATERMARK
         SHOW_JITSI_WATERMARK_FOR_GUESTS JITSI_WATERMARK_LINK].
    rewrite Hdyn.
    match goal with |- context [if truthy ?f then _ else _] =>
      destruct (truthy f) end; [|reflexivity].
    destruct (url (get branding "logoImageUrl")); reflexivity.
Qed.

Lemma dynamic_image_is_interpolated_witness :
  hasSlices storeWithoutImage exampleJwt brandingWithoutImage
            exampleConference
  /\ truthy (get brandingWithoutImage "useDynamicBrandingData") = true
  /\ exists tree,
      ConnectedWatermarks exampleConfig exampleT (JStr "images/own.png")
                          storeWithoutImage = Normal tree
      /\ visible (productSlot tree) = true
      /\ backgroundImageOf (productSlot tree) = Some "url(undefined)".
Proof.
  split; [repeat split|]. split; [reflexivity|].
  destruct (dynamic_image_is_interpolated exampleConfig exampleT
              (JStr "images/own.png") storeWithoutImage exampleJwt
              brandingWithoutImage exampleConference)
    as (_ & Habsent & _).
  - repeat split.
  - reflexivity.
  - destruct Habsent as (tree & Hc & Hbg); [left; reflexivity|].
    exists tree. split; [exact Hc|].
    assert (Hv : visible (productSlot tree) = true)
      by (vm_compute in Hc; injection Hc as <-; reflexivity).
    split; [exact Hv|]. exact (Hbg Hv).
Defined.

(** ** The slots of a returned tree *)

(** Whatever the store, a tree the connected component returns holds what
    the three methods make of one instance. *)
Lemma connected_slots interfaceConfig translate defaultLogo store tree :
  ConnectedWatermarks interfaceConfig translate defaultLogo store
  = Normal tree ->
  exists p,
    _renderJitsiWatermark interfaceConfig (new interfaceConfig p)
    = Normal (productSlot tree)
    /\ brandSlot tree = _renderBrandWatermark (new interfaceConfig p)
    /\ poweredBySlot tree = _renderPoweredBy (new interfaceConfig p)
    /\ t p = translate.
Proof.
  unfold ConnectedWatermarks.
  destruct (_mapStateToProps interfaceConfig store) as [mapped|e];
    [|discriminate].
  cbn [mbind Completion_bind]. intros Hr.
  apply render_returns in Hr as (e & He & ->).
  exists (connectProps translate defaultLogo mapped). repeat split.
  exact He.
Qed.

(** The powered-by slot of a fresh instance. *)
Lemma renderPoweredBy_new interfaceConfig p :
  _renderPoweredBy (new interfaceConfig p)
  = if truthy (SHOW_POWERED_BY interfaceConfig)
    then Anchor (Some "poweredby") (JStr "http://jitsi.org") "_new"
           [Span [Text (t p "poweredby"); Text " jitsi.org"]]
    else Null.
Proof. reflexivity. Qed.

(** ** The brand slot *)

(** The brand slot in full: nothing, the bare badge, or the badge inside an
    anchor to BRAND_WATERMARK_LINK. *)
Lemma renderBrandWatermark_new interfaceConfig p :
  _renderBrandWatermark (new interfaceConfig p)
  = if negb (truthy (filmStripOnly interfaceConfig))
       && truthy (SHOW_BRAND_WATERMARK interfaceConfig)
    then
      if truthy (BRAND_WATERMARK_LINK interfaceConfig)
      then Anchor None (BRAND_WATERMARK_LINK interfaceConfig) "_new"
             [Div (Some "watermark rightwatermark")
                  (Some _RIGHT_WATERMARK_STYLE) []]
      else Div (Some "watermark rightwatermark")
               (Some _RIGHT_WATERMARK_STYLE) []
    else Null.
Proof.
  unfold _renderBrandWatermark, new, constructor.
  cbn [state showBrandWatermark brandWatermarkLink].
  destruct (truthy (filmStripOnly interfaceConfig)); [reflexivity|].
  cbn [negb andb].
  destruct (truthy (SHOW_BRAND_WATERMARK interfaceConfig)); reflexivity.
Qed.

(** C2: the brand slot is not visible when filmStripOnly is set, and is
    otherwise visible exactly when SHOW_BRAND_WATERMARK is set; nothing the
    branding or session state supplies changes it. *)
Theorem brand_slot_visibility interfaceConfig (p : Props) :
  visible (_renderBrandWatermark (new interfaceConfig p))
  = (if truthy (filmStripOnly interfaceConfig) then false
     else truthy (SHOW_BRAND_WATERMARK interfaceConfig))
  /\ (forall p' : Props,
        _renderBrandWatermark (new interfaceConfig p')
        = _renderBrandWatermark (new interfaceConfig p))
  /\ (forall t defaultLogo store tree,
        ConnectedWatermarks interfaceConfig t defaultLogo store = Normal tree ->
        brandSlot tree = _renderBrandWatermark (new interfaceConfig p)).
Proof.
  split; [|split].
  - rewrite renderBrandWatermark_new.
    destruct (truthy (filmStripOnly interfaceConfig)); [reflexivity|].
    destruct (truthy (SHOW_BRAND_WATERMARK interfaceConfig)); [|reflexivity].
    destruct (truthy (BRAND_WATERMARK_LINK interfaceConfig)); reflexivity.
  - intros p'. now rewrite !renderBrandWatermark_new.
  - intros t defaultLogo store tree Hc.
    apply connected_slots in Hc as (p' & _ & -> & _ & _).
    now rewrite !renderBrandWatermark_new.
Qed.

(** C3: when the brand slot is visible, a non-empty BRAND_WATERMARK_LINK is
    the brand link and the badge is wrapped in an anchor to it; an empty one
    leaves the link empty and the badge unwrapped. *)
Theorem brand_slot_link interfaceConfig (p : Props) :
  visible (_renderBrandWatermark (new interfaceConfig p)) = true ->
  brandWatermarkLink (state (new interfaceConfig p))
  = BRAND_WATERMARK_LINK interfaceConfig
  /\ badge (_renderBrandWatermark (new interfaceConfig p))
     = Div (Some "watermark rightwatermark") (Some _RIGHT_WATERMARK_STYLE) []
  /\ (truthy (BRAND_WATERMARK_LINK interfaceConfig) = true ->
      _renderBrandWatermark (new interfaceConfig p)
      = Anchor None (BRAND_WATERMARK_LINK interfaceConfig) "_new"
          [Div (Some "watermark rightwatermark")
               (Some _RIGHT_WATERMARK_STYLE) []]
      /\ slotState (_renderBrandWatermark (new interfaceConfig p))
         = VisibleWithLink (BRAND_WATERMARK_LINK interfaceConfig))
  /\ (truthy (BRAND_WATERMARK_LINK interfaceConfig) = false ->
      _renderBrandWatermark (new interfaceConfig p)
      = Div (Some "watermark rightwatermark") (Some _RIGHT_WATERMARK_STYLE) []
      /\ slotState (_renderBrandWatermark (new interfaceConfig p))
         = VisibleNoLink)
  /\ (forall s,
        BRAND_WATERMARK_LINK interfaceConfig = JStr s ->
        (s <> "" ->
         brandWatermarkLink (state (new interfaceConfig p)) = JStr s
         /\ slotState (_renderBrandWatermark (new interfaceConfig p))
            = VisibleWithLink (JStr s))
        /\ (s = "" ->
            brandWatermarkLink (state (new interfaceConfig p)) = JStr ""
            /\ slotState (_renderBrandWatermark (new interfaceConfig p))
               = VisibleNoLink)).
Proof.
  rewrite renderBrandWatermark_new.
  unfold new, constructor. cbn [state brandWatermarkLink].
  destruct (truthy (filmStripOnly interfaceConfig)); [discriminate|].
  destruct (truthy (SHOW_BRAND_WATERMARK interfaceConfig)); [|discriminate].
  cbn [negb andb]. intros _.
  split; [reflexivity|].
  destruct (truthy (BRAND_WATERMARK_LINK interfaceConfig)) eqn:Hlink.
  - split; [reflexivity|]. split; [auto|]. split; [discriminate|].
    intros s Hs. rewrite Hs in Hlink |- *. split; [auto|].
    intros ->. discriminate.
  - split; [reflexivity|]. split; [discriminate|]. split; [auto|].
    intros s Hs. rewrite Hs in Hlink |- *. split.
    + intros Hne. apply truthy_JStr in Hne. congruence.
    + intros ->. auto.
Qed.

Lemma brand_slot_link_witness :
  visible (_renderBrandWatermark (new exampleConfig exampleProps)) = true
  /\ brandWatermarkLink (state (new exampleConfig exampleProps))
     = JStr "https://brand.example"
  /\ slotState (_renderBrandWatermark (new exampleConfig exampleProps))
     = VisibleWithLink (JStr "https://brand.example").
Proof.
  split; [reflexivity|].
  destruct (brand_slot_link exampleConfig exampleProps)
    as (Hlink & _ & Hwrapped & _); [reflexivity|].
  split; [exact Hlink|]. apply Hwrapped. reflexivity.
Defined.

Lemma brand_slot_visibility_witness :
  exists tree,
    ConnectedWatermarks exampleConfig exampleT JUndefined exampleStore
    = Normal tree
    /\ brandSlot tree = _renderBrandWatermark (new exampleConfig exampleProps)
    /\ visible (brandSlot tree) = true.
Proof.
  destruct (brand_slot_visibility exampleConfig exampleProps)
    as (Hvisible & _ & Hstore).
  eexists. split; [reflexivity|]. split.
  - apply (Hstore exampleT JUndefined exampleStore). reflexivity.
  - reflexivity.
Defined.

(** ** The powered-by slot *)

(** C5: the powered-by slot is visible exactly when SHOW_POWERED_BY is set,
    whatever the other configuration, branding and session inputs are, and
    when visible it links to the fixed address http://jitsi.org. *)
Theorem powered_by_slot interfaceConfig (p : Props) :
  visible (_renderPoweredBy (new interfaceConfig p))
  = truthy (SHOW_POWERED_BY interfaceConfig)
  /\ slotState (_renderPoweredBy (new interfaceConfig p))
     = (if truthy (SHOW_POWERED_BY interfaceConfig)
        then VisibleWithLink (JStr "http://jitsi.org")
        else NotVisible)
  /\ (forall t defaultLogo store tree,
        ConnectedWatermarks interfaceConfig t defaultLogo store = Normal tree ->
        slotState (poweredBySlot tree)
        = slotState (_renderPoweredBy (new interfaceConfig p))).
Proof.
  assert (Hst : forall q,
            slotState (_renderPoweredBy (new interfaceConfig q))
            = if truthy (SHOW_POWERED_BY interfaceConfig)
              then VisibleWithLink (JStr "http://jitsi.org")
              else NotVisible).
  { intros q. unfold _renderPoweredBy, new, constructor.
    cbn [state showPoweredBy].
    destruct (truthy (SHOW_POWERED_BY interfaceConfig)); reflexivity. }
  split; [|split].
  - unfold _renderPoweredBy, new, constructor. cbn [state showPoweredBy].
    destruct (truthy (SHOW_POWERED_BY interfaceConfig)); reflexivity.
  - apply Hst.
  - intros t defaultLogo store tree Hc.
    apply connected_slots in Hc as (p' & _ & _ & -> & _).
    now rewrite !Hst.
Qed.

Lemma powered_by_slot_witness :
  exists tree,
    ConnectedWatermarks exampleConfig exampleT JUndefined exampleStore
    = Normal tree
    /\ slotState (poweredBySlot tree)
       = VisibleWithLink (JStr "http://jitsi.org").
Proof.
  destruct (powered_by_slot exampleConfig exampleProps)
    as (_ & Hstate & Hstore).
  eexists. split; [reflexivity|].
  rewrite (Hstore exampleT JUndefined exampleStore _ eq_refl).
  exact Hstate.
Defined.


(** ** Updating a property *)

Lemma get_insert_eq (o : gmap string JsVal) k v : get (<[k:=v]> o) k = v.
Proof. unfold get. now rewrite lookup_insert_eq. Qed.

Lemma get_insert_ne (o : gmap string JsVal) k k' v :
  k <> k' -> get (<[k:=v]> o) k' = get o k'.
Proof. intros Hne. unfold get. now rewrite lookup_insert_ne. Qed.

Lemma get_delete_eq (o : gmap string JsVal) k : get (delete k o) k = JUndefined.
Proof. unfold get. now rewrite lookup_delete_eq. Qed.

Lemma get_delete_ne (o : gmap string JsVal) k k' :
  k <> k' -> get (delete k o) k' = get o k'.
Proof. intros Hne. unfold get. now rewrite lookup_delete_ne. Qed.

#[local] Ltac get_simpl :=
  repeat first
    [ rewrite get_insert_eq
    | rewrite get_delete_eq
    | rewrite get_insert_ne by discriminate
    | rewrite get_delete_ne by discriminate ].

(** Replacing the branding slice leaves the other two slices alone. *)
Lemma hasSlices_set_branding store jwt branding conference branding' :
  hasSlices store jwt branding conference ->
  hasSlices (<["features/dynamic-branding" := JObj branding']> store)
            jwt branding' conference.
Proof.
  intros (Hj & Hb & Hc). unfold hasSlices. get_simpl. auto.
Qed.

(** Once customization is not both ready and unfailed, the static path is
    falsy and the flag is whatever the welcome page says. *)
Lemma showJitsiWatermark_suppressed notFilmStrip ready notFailed shown welcome :
  truthy ready && truthy notFailed = false ->
  js_or (js_and (js_and notFilmStrip (js_and ready notFailed)) shown) welcome
  = welcome.
Proof.
  intros Hoff. apply js_or_falsy_l.
  rewrite !truthy_and, Hoff. now rewrite andb_false_r.
Qed.


(** ** A failed customization *)

(** C6: setting customizationFailed to true gives the same output as setting
    customizationReady to false instead. Either way the static path of the
    product slot is off and nothing else changes: inside a room the product
    slot is not rendered (and nothing is interpolated, so the component
    returns) while the brand and powered-by slots are as in any other
    render; with no room active the output is that of the unchanged
    store. *)
Theorem customization_failed_as_not_ready interfaceConfig t defaultLogo
    (store branding : gmap string JsVal) :
  toObject (get store "features/dynamic-branding") = Normal branding ->
  ConnectedWatermarks interfaceConfig t defaultLogo
    (setBranding store branding "customizationFailed" (JBool true))
  = ConnectedWatermarks interfaceConfig t defaultLogo
      (setBranding store branding "customizationReady" (JBool false))
  /\ (forall jwt conference,
        hasSlices store jwt branding conference ->
        (truthy (get conference "room") = true ->
         exists tree',
           ConnectedWatermarks interfaceConfig t defaultLogo
             (setBranding store branding "customizationFailed" (JBool true))
           = Normal tree'
           /\ productSlot tree' = Null
           /\ (forall tree,
                 ConnectedWatermarks interfaceConfig t defaultLogo store
                 = Normal tree ->
                 brandSlot tree' = brandSlot tree
                 /\ poweredBySlot tree' = poweredBySlot tree))
        /\ (truthy (get conference "room") = false ->
            ConnectedWatermarks interfaceConfig t defaultLogo
              (setBranding store branding "customizationFailed" (JBool true))
            = ConnectedWatermarks interfaceConfig t defaultLogo store)).
Proof.
  intros Hbranding. split.
  - unfold ConnectedWatermarks, _mapStateToProps, member, setBranding.
    get_simpl.
    destruct (toObject (get store "features/base/jwt")) as [jwt|e];
      [|reflexivity].
    destruct (toObject (get store "features/base/conference"))
      as [conference|e]; [|reflexivity].
    cbn [mbind Completion_bind mret Completion_ret toObject].
    get_simpl.
    now rewrite !showJitsiWatermark_suppressed
      by (cbn; auto using andb_false_r).
  - intros jwt conference Hs.
    pose proof (connected_eq interfaceConfig t defaultLogo _ _ _ _
                  (hasSlices_set_branding _ _ _ _
                     (<["customizationFailed" := JBool true]> branding) Hs))
      as Hfailed.
    revert Hfailed. get_simpl.
    rewrite showJitsiWatermark_suppressed by (cbn; auto using andb_false_r).
    fold (setBranding store branding "customizationFailed" (JBool true)).
    intros Hfailed. split; intros Hroom.
    + rewrite Hfailed. unfold render.
      rewrite renderJitsiWatermark_hidden
        by (cbn; now rewrite Hroom).
      cbn [mbind Completion_bind mret Completion_ret].
      eexists. split; [reflexivity|]. split; [reflexivity|].
      intros tree Hc.
      apply connected_slots in Hc as (p & _ & -> & -> & Ht).
      unfold brandSlot, poweredBySlot.
      cbn [child lookup list_lookup default from_option id].
      rewrite !renderBrandWatermark_new, !renderPoweredBy_new.
      simpl. now rewrite Ht.
    + rewrite Hfailed, (connected_eq interfaceConfig t defaultLogo
                          _ _ _ _ Hs).
      apply render_product_only, renderJitsiWatermark_flag.
      rewrite truthy_flag, !truthy_not, Hroom. cbn [negb].
      now rewrite orb_true_r.
Qed.

Lemma customization_failed_as_not_ready_witness :
  toObject (get exampleStore "features/dynamic-branding")
  = Normal exampleBranding
  /\ hasSlices exampleStore exampleJwt exampleBranding exampleConference
  /\ exists tree',
      ConnectedWatermarks exampleConfig exampleT JUndefined
        (setBranding exampleStore exampleBranding "customizationFailed"
                     (JBool true))
      = Normal tree'
      /\ ConnectedWatermarks exampleConfig exampleT JUndefined
           (setBranding exampleStore exampleBranding "customizationReady"
                        (JBool false))
         = Normal tree'
      /\ productSlot tree' = Null.
Proof.
  split; [reflexivity|]. split; [repeat split|].
  destruct (customization_failed_as_not_ready exampleConfig exampleT
              JUndefined exampleStore exampleBranding eq_refl)
    as (Heq & Heffect).
  destruct (Heffect exampleJwt exampleConference) as (Hroom & _);
    [repeat split|].
  destruct (Hroom eq_refl) as (tree' & Hf & Hp & _).
  exists tree'. split; [exact Hf|]. split; [|exact Hp].
  rewrite <- Heq. exact Hf.
Defined.

(** ** One state per slot *)

Lemma InState_slotState e s : InState e s -> s = slotState e.
Proof.
  intros H. inversion H; subst; try reflexivity.
  destruct e; simpl in *; congruence.
Qed.

Lemma InState_unique e :
  InState e (slotState e) -> exists! s, InState e s.
Proof.
  intros H. exists (slotState e). split; [exact H|].
  intros s' Hs'. symmetry. now apply InState_slotState.
Qed.

Lemma renderBrandWatermark_InState interfaceConfig p :
  InState (_renderBrandWatermark (new interfaceConfig p))
          (slotState (_renderBrandWatermark (new interfaceConfig p))).
Proof.
  rewrite renderBrandWatermark_new.
  destruct (negb (truthy (filmStripOnly interfaceConfig))
            && truthy (SHOW_BRAND_WATERMARK interfaceConfig));
    [|constructor].
  destruct (truthy (BRAND_WATERMARK_LINK interfaceConfig)) eqn:Hlink;
    now constructor.
Qed.

Lemma renderJitsiWatermark_InState interfaceConfig this e :
  _renderJitsiWatermark interfaceConfig this = Normal e ->
  InState e (slotState e).
Proof.
  rewrite renderJitsiWatermark_eq.
  destruct (truthy (_showJitsiWaterMark (props this)));
    [|intros [= <-]; constructor].
  destruct (url (chosenLogo interfaceConfig (props this))) as [image|err];
    cbn; [|discriminate].
  intros [= <-].
  destruct (truthy (chosenLink interfaceConfig (props this))) eqn:Hlink;
    now constructor.
Qed.

Lemma renderPoweredBy_InState this :
  InState (_renderPoweredBy this) (slotState (_renderPoweredBy this)).
Proof.
  unfold _renderPoweredBy.
  destruct (truthy (showPoweredBy (state this))); now constructor.
Qed.

(** C7, as the code has it: every slot that is rendered is in exactly one
    of the states not visible, visible without a link, visible with a link.
    A brand slot that is not visible has its link set to the empty string.
    The product slot has no such reset: [_mapStateToProps] hands
    logoClickUrl on as [_customLogoLink] whatever the flag beside it, and a
    product slot that is not to be shown renders as nothing, the link
    disregarded. The powered-by slot has no link field; not shown, it
    renders as nothing. *)
Theorem one_state_per_slot interfaceConfig (p : Props) :
  let this := new interfaceConfig p in
  (forall e,
      _renderJitsiWatermark interfaceConfig this = Normal e ->
      exists! s, InState e s)
  /\ (exists! s, InState (_renderBrandWatermark this) s)
  /\ (exists! s, InState (_renderPoweredBy this) s)
  /\ (truthy (showBrandWatermark (state this)) = false ->
      brandWatermarkLink (state this) = JStr ""
      /\ _renderBrandWatermark this = Null)
  /\ (truthy (_showJitsiWaterMark p) = false ->
      _renderJitsiWatermark interfaceConfig this = Normal Null)
  /\ (truthy (showPoweredBy (state this)) = false ->
      _renderPoweredBy this = Null)
  /\ (forall store mapped,
        _mapStateToProps interfaceConfig store = Normal mapped ->
        member (get store "features/dynamic-branding") "logoClickUrl"
        = Normal (Mapped._customLogoLink mapped)).
Proof.
  cbn zeta.
  split; [intros e He;
          apply InState_unique, (renderJitsiWatermark_InState _ _ _ He)|].
  split; [apply InState_unique, renderBrandWatermark_InState|].
  split; [apply InState_unique, renderPoweredBy_InState|].
  split; [|split; [|split]].
  - unfold _renderBrandWatermark, new, constructor.
    cbn [state brandWatermarkLink showBrandWatermark].
    intros ->. auto.
  - intros Hflag. now apply renderJitsiWatermark_hidden.
  - unfold _renderPoweredBy. now intros ->.
  - intros store mapped. unfold _mapStateToProps, member.
    destruct (toObject (get store "features/base/jwt")) as [jwt|e];
      [|discriminate].
    destruct (toObject (get store "features/dynamic-branding"))
      as [branding|e]; [|discriminate].
    destruct (toObject (get store "features/base/conference"))
      as [conference|e]; [|discriminate].
    cbn [mbind Completion_bind mret Completion_ret]. now intros [= <-].
Qed.

Lemma one_state_per_slot_witness :
  truthy (showBrandWatermark (state (new filmStripConfig exampleProps)))
  = false
  /\ brandWatermarkLink (state (new filmStripConfig exampleProps)) = JStr ""
  /\ exists e,
      _renderJitsiWatermark filmStripConfig
        (new filmStripConfig exampleProps) = Normal e
      /\ InState e (VisibleWithLink (JStr "https://x/home")).
Proof.
  destruct (one_state_per_slot filmStripConfig exampleProps)
    as (Hproduct & _ & _ & Hbrand & _).
  split; [reflexivity|]. split; [apply Hbrand; reflexivity|].
  eexists. split; [reflexivity|].
  destruct (Hproduct _ eq_refl) as (s & Hs & _).
  rewrite (InState_slotState _ _ Hs) in Hs. exact Hs.
Defined.

(** C7 as stated fails for the product slot: in a film-strip-only
    deployment, inside a room, the mapped flag is false and the link mapped
    beside it is still the non-empty logoClickUrl, where the brand link of
    the same instance has been set to the empty string. *)
Lemma hidden_product_slot_keeps_link :
  exists mapped,
    _mapStateToProps filmStripConfig exampleStore = Normal mapped
    /\ truthy (Mapped._showJitsiWaterMark mapped) = false
    /\ Mapped._customLogoLink mapped = JStr "https://x/home"
    /\ Mapped._customLogoLink mapped <> JStr ""
    /\ truthy (showBrandWatermark
                 (state (new filmStripConfig
                           (connectProps exampleT JUndefined mapped))))
       = false
    /\ brandWatermarkLink
         (state (new filmStripConfig
                   (connectProps exampleT JUndefined mapped)))
       = JStr "".
Proof.
  eexists. split; [vm_compute; reflexivity|].
  repeat split. discriminate.
Qed.

(** ** Determinism *)

(** [this.state] is the constructor's, however often the instance has been
    re-rendered. *)
Lemma rerenders_state interfaceConfig history this :
  state (rerenders interfaceConfig this history) = state this.
Proof.
  unfold rerenders. revert this.
  induction history as [|p history IH]; intros this; [reflexivity|].
  cbn [fold_left]. now rewrite IH.
Qed.

(** C8: the output is a function of the inputs alone. Two stores that give
    the same outcome for every property the component reads give the same
    result, whatever else they hold; and an instance that has already been
    rendered any number of times, with any props, renders new props exactly
    as a fresh instance does. *)
Theorem resolver_is_deterministic interfaceConfig t defaultLogo
    (store1 store2 : gmap string JsVal) :
  storeReads store1 = storeReads store2 ->
  ConnectedWatermarks interfaceConfig t defaultLogo store1
  = ConnectedWatermarks interfaceConfig t defaultLogo store2
  /\ (forall (p0 p : Props) (history : list Props),
        snd (rerender interfaceConfig
               (rerenders interfaceConfig (new interfaceConfig p0) history) p)
        = render interfaceConfig (new interfaceConfig p)).
Proof.
  intros Hreads. split.
  - unfold storeReads, member in Hreads.
    unfold ConnectedWatermarks, _mapStateToProps, member.
    destruct (toObject (get store1 "features/base/jwt")) as [jwt1|e1],
             (toObject (get store2 "features/base/jwt")) as [jwt2|e2],
             (toObject (get store1 "features/dynamic-branding"))
               as [branding1|e3],
             (toObject (get store2 "features/dynamic-branding"))
               as [branding2|e4],
             (toObject (get store1 "features/base/conference"))
               as [conference1|e5],
             (toObject (get store2 "features/base/conference"))
               as [conference2|e6];
      cbn in Hreads |- *; try discriminate Hreads; simplify_eq;
      try reflexivity; try destruct e1; try destruct e2; try destruct e3;
      try destruct e4; try destruct e5; try destruct e6; try reflexivity.
    congruence.
  - intros p0 p history. unfold rerender, withProps. cbn [snd].
    rewrite rerenders_state. reflexivity.
Qed.

Lemma resolver_is_deterministic_witness :
  storeReads exampleStore = storeReads exampleStoreWithExtras
  /\ exampleStore <> exampleStoreWithExtras
  /\ ConnectedWatermarks exampleConfig exampleT JUndefined exampleStore
     = ConnectedWatermarks exampleConfig exampleT JUndefined
         exampleStoreWithExtras.
Proof.
  split; [reflexivity|]. split.
  - intros Heq.
    apply (f_equal (fun m => m !! "features/base/settings")) in Heq.
    vm_compute in Heq. discriminate.
  - apply (resolver_is_deterministic exampleConfig exampleT JUndefined
             exampleStore exampleStoreWithExtras).
    reflexivity.
Defined.

(** ** Absent and falsy properties *)

Lemma get_setField_eq o key v : get (setField o key v) key = readOptional v.
Proof.
  destruct v as [x|]; cbn [setField readOptional default].
  - apply get_insert_eq.
  - apply get_delete_eq.
Qed.



(** Brings both sides of an equation between product slots to the form of
    [renderJitsiWatermark_eq], with the flag read by its truthiness. *)
#[local] Ltac product_slot_form :=
  rewrite !renderJitsiWatermark_eq; unfold chosenLink, chosenLogo;
  cbn [props new connectProps _customLogoLink _customLogoUrl
       _useDynamicBrandingData _showJitsiWaterMark defaultJitsiLogoURL
       Mapped._customLogoLink Mapped._customLogoUrl
       Mapped._useDynamicBrandingData Mapped._showJitsiWaterMark];
  rewrite ?truthy_flag, ?truthy_not.




Lemma visible_false e : visible e = false -> e = Null.
Proof. destruct e; [reflexivity|discriminate..]. Qed.





(** Without one of the three feature slices in the store, reading through
    it throws. *)
Example mapStateToProps_without_slice :
  _mapStateToProps exampleConfig
    (delete "features/dynamic-branding" exampleStore)
  = Throw TypeError.
Proof. reflexivity. Qed.

(** ** When the component throws *)


(** ** What the mapped flag can be *)

(** Case analysis on the truthiness of every value tested in the goal,
    innermost tests first. *)
#[local] Ltac truthy_cases :=
  repeat match goal with
         | H : truthy ?x = _ |- context [truthy ?x] =>
             rewrite H; cbn [truthy negb andb orb]
         | |- context [truthy ?x] =>
             lazymatch x with
             | context [truthy _] => fail
             | JBool _ => fail
             | _ => destruct (truthy x) eqn:?
             end;
             cbn [truthy negb andb orb]
         end.

(** X2: since [&&] and [||] hand back one of their operands, the flag
    [_mapStateToProps] maps is either SHOW_JITSI_WATERMARK or
    SHOW_JITSI_WATERMARK_FOR_GUESTS itself (and then truthy), or the boolean
    [!room]; it is never a value read from the store. With those two
    settings boolean, the flag is a boolean whatever the store holds. *)
Theorem mapped_flag_values interfaceConfig
    (store jwt branding conference : gmap string JsVal) :
  hasSlices store jwt branding conference ->
  exists mapped,
    _mapStateToProps interfaceConfig store = Normal mapped
    /\ ((Mapped._showJitsiWaterMark mapped
         = SHOW_JITSI_WATERMARK interfaceConfig
         /\ truthy (SHOW_JITSI_WATERMARK interfaceConfig) = true)
        \/ (Mapped._showJitsiWaterMark mapped
            = SHOW_JITSI_WATERMARK_FOR_GUESTS interfaceConfig
            /\ truthy (SHOW_JITSI_WATERMARK_FOR_GUESTS interfaceConfig)
               = true)
        \/ Mapped._showJitsiWaterMark mapped
           = JBool (negb (truthy (get conference "room"))))
    /\ (isBoolean (SHOW_JITSI_WATERMARK interfaceConfig) = true ->
        isBoolean (SHOW_JITSI_WATERMARK_FOR_GUESTS interfaceConfig) = true ->
        isBoolean (Mapped._showJitsiWaterMark mapped) = true).
Proof.
  intros Hs. eexists. split; [apply (mapStateToProps_eq _ _ _ _ _ Hs)|].
  cbn [Mapped._showJitsiWaterMark].
  assert (Hvalues :
    forall notFilmStrip ready notFailed show guest forGuests welcome,
      let flag :=
        js_or (js_and (js_and notFilmStrip (js_and ready notFailed))
                      (js_or show (js_and guest forGuests)))
              welcome in
      (flag = show /\ truthy show = true)
      \/ (flag = forGuests /\ truthy forGuests = true)
      \/ flag = welcome).
  { intros. unfold flag, js_or, js_and. truthy_cases; auto. }
  split; [apply Hvalues|].
  intros Hshow HforGuests.
  destruct (Hvalues (js_not (filmStripOnly interfaceConfig))
              (get branding "customizationReady")
              (js_not (get branding "customizationFailed"))
              (SHOW_JITSI_WATERMARK interfaceConfig)
              (get jwt "isGuest")
              (SHOW_JITSI_WATERMARK_FOR_GUESTS interfaceConfig)
              (js_not (get conference "room")))
    as [[-> _] | [[-> _] | ->]]; auto.
Qed.

Lemma mapped_flag_values_witness :
  hasSlices
    (mkStore (JObj {[ "isGuest" := JStr "anonymous" ]}) (JObj ∅) (JObj ∅))
    {[ "isGuest" := JStr "anonymous" ]} ∅ ∅
  /\ exists mapped,
      _mapStateToProps exampleConfig
        (mkStore (JObj {[ "isGuest" := JStr "anonymous" ]}) (JObj ∅)
                 (JObj ∅))
      = Normal mapped
      /\ isBoolean (Mapped._showJitsiWaterMark mapped) = true.
Proof.
  split; [repeat split|].
  destruct (mapped_flag_values exampleConfig
              (mkStore (JObj {[ "isGuest" := JStr "anonymous" ]}) (JObj ∅)
                       (JObj ∅))
              {[ "isGuest" := JStr "anonymous" ]} ∅ ∅)
    as (mapped & Hm & _ & Hbool); [repeat split|].
  exists mapped. split; [exact Hm|]. apply Hbool; reflexivity.
Defined.

(** ** Anchors *)

(** X3: whatever its props and state, a tree an instance renders holds at
    most three anchors, each with a truthy [href] and with target [_new]:
    the component never renders a link that leads nowhere. *)
Theorem anchors_are_live interfaceConfig (this : Watermarks) tree :
  render interfaceConfig this = Normal tree ->
  length (anchors tree) <= 3
  /\ Forall (fun a => truthy (fst a) = true /\ snd a = "_new")
            (anchors tree).
Proof.
  intros Hr. apply render_returns in Hr as (e & He & ->).
  rewrite renderJitsiWatermark_eq in He.
  unfold _renderBrandWatermark, _renderPoweredBy.
  destruct (truthy (_showJitsiWaterMark (props this)));
    [destruct (url (chosenLogo interfaceConfig (props this)));
       [|discriminate];
     cbn in He;
     destruct (truthy (chosenLink interfaceConfig (props this))) eqn:Hlink|];
    injection He as <-;
    destruct (truthy (showBrandWatermark (state this)));
    destruct (truthy (brandWatermarkLink (state this))) eqn:Hbrand;
    destruct (truthy (showPoweredBy (state this)));
    cbn; (split; [lia|]); repeat constructor; assumption.
Qed.

Lemma anchors_are_live_witness :
  exists tree,
    render exampleConfig (new exampleConfig exampleProps) = Normal tree
    /\ length (anchors tree) = 3
    /\ Forall (fun a => truthy (fst a) = true /\ snd a = "_new")
              (anchors tree).
Proof.
  eexists. split; [reflexivity|]. split; [reflexivity|].
  apply (anchors_are_live exampleConfig (new exampleConfig exampleProps)).
  reflexivity.
Defined.

(** ** The translator *)

(** X6: the component asks the translator for the key [poweredby] and for
    nothing else, and only when the powered-by slot is shown: two
    translators that agree on that key whenever SHOW_POWERED_BY is set give
    the same output. *)
Theorem translator_is_asked_one_key interfaceConfig
    (translate translate' : string -> string) defaultLogo
    (store : gmap string JsVal) :
  (truthy (SHOW_POWERED_BY interfaceConfig) = true ->
   translate "poweredby" = translate' "poweredby") ->
  ConnectedWatermarks interfaceConfig translate defaultLogo store
  = ConnectedWatermarks interfaceConfig translate' defaultLogo store.
Proof.
  intros Hkey. unfold ConnectedWatermarks.
  destruct (_mapStateToProps interfaceConfig store) as [mapped|e];
    [|reflexivity].
  cbn [mbind Completion_bind]. unfold render.
  change (_renderJitsiWatermark interfaceConfig
            (new interfaceConfig (connectProps translate' defaultLogo mapped)))
    with (_renderJitsiWatermark interfaceConfig
            (new interfaceConfig (connectProps translate defaultLogo mapped))).
  destruct (_renderJitsiWatermark interfaceConfig
              (new interfaceConfig (connectProps translate defaultLogo mapped)))
    as [e|err]; [|reflexivity].
  cbn [mbind Completion_bind mret Completion_ret]. f_equal.
  unfold _renderPoweredBy, new, constructor, connectProps.
  cbn [state props showPoweredBy t].
  destruct (truthy (SHOW_POWERED_BY interfaceConfig)); [|reflexivity].
  now rewrite (Hkey eq_refl).
Qed.

Lemma translator_is_asked_one_key_witness :
  englishT "brand" <> otherT "brand"
  /\ truthy (SHOW_POWERED_BY exampleConfig) = true
  /\ englishT "poweredby" = otherT "poweredby"
  /\ ConnectedWatermarks exampleConfig englishT JUndefined exampleStore
     = ConnectedWatermarks exampleConfig otherT JUndefined exampleStore.
Proof.
  split; [discriminate|]. split; [reflexivity|]. split; [reflexivity|].
  apply (translator_is_asked_one_key exampleConfig englishT otherT
           JUndefined exampleStore).
  reflexivity.
Defined.

(** ** Flags are read as booleans *)

(** X9: the five flags of [interfaceConfig] are read as booleans and as
    nothing more: replacing each by [true] or [false] according to its
    truthiness leaves the output as it is. *)
Theorem config_flags_by_truthiness interfaceConfig t defaultLogo
    (store : gmap string JsVal) :
  ConnectedWatermarks (booleanFlags interfaceConfig) t defaultLogo store
  = ConnectedWatermarks interfaceConfig t defaultLogo store.
Proof.
  unfold ConnectedWatermarks, _mapStateToProps, member.
  destruct (toObject (get store "features/base/jwt")) as [jwt|e];
    [|reflexivity].
  destruct (toObject (get store "features/dynamic-branding"))
    as [branding|e]; [|reflexivity].
  destruct (toObject (get store "features/base/conference"))
    as [conference|e]; [|reflexivity].
  cbn [mbind Completion_bind mret Completion_ret]. unfold render.
  match goal with
  | |- context [_renderJitsiWatermark (booleanFlags interfaceConfig) ?a] =>
      match goal with
      | |- context [_renderJitsiWatermark interfaceConfig ?b] =>
          assert (_renderJitsiWatermark (booleanFlags interfaceConfig) a
                  = _renderJitsiWatermark interfaceConfig b) as ->
      end
  end.
  { product_slot_form.
    cbn [booleanFlags filmStripOnly SHOW_JITSI_WATERMARK
         SHOW_JITSI_WATERMARK_FOR_GUESTS JITSI_WATERMARK_LINK
         DEFAULT_LOGO_URL truthy].
    reflexivity. }
  match goal with |- context [_renderJitsiWatermark ?c ?b] =>
    destruct (_renderJitsiWatermark c b) as [e|err] end; [|reflexivity].
  cbn [mbind Completion_bind mret Completion_ret].
  rewrite !renderBrandWatermark_new, !renderPoweredBy_new.
  cbn [booleanFlags filmStripOnly SHOW_BRAND_WATERMARK BRAND_WATERMARK_LINK
       SHOW_POWERED_BY truthy].
  reflexivity.
Qed.

(** X10: of the store, customizationReady, customizationFailed,
    useDynamicBrandingData, isGuest and room are read as booleans and as
    nothing more: two stores whose values for them are equally truthy, and
    which agree on logoClickUrl and logoImageUrl, give the same output. *)
Theorem store_flags_by_truthiness interfaceConfig t defaultLogo
    (store jwt branding conference : gmap string JsVal)
    (store' jwt' branding' conference' : gmap string JsVal) :
  hasSlices store jwt branding conference ->
  hasSlices store' jwt' branding' conference' ->
  truthy (get jwt "isGuest") = truthy (get jwt' "isGuest") ->
  truthy (get branding "customizationReady")
  = truthy (get branding' "customizationReady") ->
  truthy (get branding "customizationFailed")
  = truthy (get branding' "customizationFailed") ->
  truthy (get branding "useDynamicBrandingData")
  = truthy (get branding' "useDynamicBrandingData") ->
  truthy (get conference "room") = truthy (get conference' "room") ->
  get branding "logoClickUrl" = get branding' "logoClickUrl" ->
  get branding "logoImageUrl" = get branding' "logoImageUrl" ->
  ConnectedWatermarks interfaceConfig t defaultLogo store
  = ConnectedWatermarks interfaceConfig t defaultLogo store'.
Proof.
  intros Hs Hs' Hguest Hready Hfailed Hdyn Hroom Hlink Himage.
  rewrite (connected_eq interfaceConfig t defaultLogo _ _ _ _ Hs).
  rewrite (connected_eq interfaceConfig t defaultLogo _ _ _ _ Hs').
  apply render_product_only. product_slot_form.
  now rewrite Hguest, Hready, Hfailed, Hdyn, Hroom, Hlink, Himage.
Qed.

Lemma store_flags_by_truthiness_witness :
  hasSlices exampleStore exampleJwt exampleBranding exampleConference
  /\ hasSlices stringlyStore stringlyJwt stringlyBranding stringlyConference
  /\ exampleStore <> stringlyStore
  /\ ConnectedWatermarks exampleConfig exampleT JUndefined exampleStore
     = ConnectedWatermarks exampleConfig exampleT JUndefined stringlyStore.
Proof.
  split; [repeat split|]. split; [repeat split|]. split.
  - intros Heq.
    apply (f_equal (fun m => m !! "features/base/conference")) in Heq.
    vm_compute in Heq. discriminate.
  - apply (store_flags_by_truthiness exampleConfig exampleT JUndefined
             exampleStore exampleJwt exampleBranding exampleConference
             stringlyStore stringlyJwt stringlyBranding stringlyConference);
      try reflexivity; repeat split.
Defined.


(** ** Film-strip-only deployments *)

(** X4: with filmStripOnly set, a tree the component returns has no brand
    slot, has a product slot exactly when no room is active, and has a
    powered-by slot exactly when SHOW_POWERED_BY is set. Inside a room
    nothing is interpolated, so the component returns, with both watermarks
    gone. *)
Theorem film_strip_only_hides_watermarks interfaceConfig t defaultLogo
    (store jwt branding conference : gmap string JsVal) :
  hasSlices store jwt branding conference ->
  truthy (filmStripOnly interfaceConfig) = true ->
  (forall tree,
      ConnectedWatermarks interfaceConfig t defaultLogo store = Normal tree ->
      brandSlot tree = Null
      /\ visible (productSlot tree) = negb (truthy (get conference "room"))
      /\ visible (poweredBySlot tree)
         = truthy (SHOW_POWERED_BY interfaceConfig))
  /\ (truthy (get conference "room") = true ->
      exists tree,
        ConnectedWatermarks interfaceConfig t defaultLogo store
        = Normal tree
        /\ productSlot tree = Null
        /\ brandSlot tree = Null).
Proof.
  intros Hs Hfilm.
  assert (Hshown : productShown interfaceConfig jwt branding conference
                   = negb (truthy (get conference "room")))
    by (unfold productShown; now rewrite Hfilm).
  assert (Hslots : forall tree,
            ConnectedWatermarks interfaceConfig t defaultLogo store
            = Normal tree ->
            brandSlot tree = Null
            /\ visible (productSlot tree)
               = negb (truthy (get conference "room"))
            /\ visible (poweredBySlot tree)
               = truthy (SHOW_POWERED_BY interfaceConfig)).
  { intros tree Hc.
    destruct (connected_returns interfaceConfig t defaultLogo _ _ _ _ Hs
                tree Hc) as (p & Hp & -> & -> & Hflag & _).
    apply renderJitsiWatermark_visible in Hp. cbn [props new] in Hp.
    split; [now rewrite renderBrandWatermark_new, Hfilm|].
    split; [now rewrite Hp, Hflag|].
    rewrite renderPoweredBy_new.
    destruct (truthy (SHOW_POWERED_BY interfaceConfig)); reflexivity. }
  split; [exact Hslots|].
  intros Hroom. rewrite Hroom in Hshown.
  destruct (proj1 (proj1 (connected_completes interfaceConfig t defaultLogo
                            _ _ _ _ Hs)) (or_introl Hshown)) as [tree Hc].
  exists tree. split; [exact Hc|].
  destruct (Hslots tree Hc) as (Hb & Hv & _).
  rewrite Hroom in Hv. split; [now apply visible_false|exact Hb].
Qed.

Lemma film_strip_only_hides_watermarks_witness :
  hasSlices exampleStore exampleJwt exampleBranding exampleConference
  /\ truthy (filmStripOnly filmStripConfig) = true
  /\ ConnectedWatermarks filmStripConfig exampleT JUndefined exampleStore
     = Normal (Div None None [Null; Null; Null]).
Proof.
  split; [repeat split|]. split; [reflexivity|].
  destruct (film_strip_only_hides_watermarks filmStripConfig exampleT
              JUndefined exampleStore exampleJwt exampleBranding
              exampleConference)
    as (_ & Hroom); [repeat split|reflexivity|].
  destruct (Hroom eq_refl) as (tree & Hc & _).
  rewrite Hc. f_equal.
  vm_compute in Hc. injection Hc as <-. reflexivity.
Defined.

(** ** Which settings a slot reads *)

(** X5: each slot reads its own settings only. The product slot, and
    whether rendering it throws, is the same under two configurations that
    agree on filmStripOnly, SHOW_JITSI_WATERMARK,
    SHOW_JITSI_WATERMARK_FOR_GUESTS, JITSI_WATERMARK_LINK and
    DEFAULT_LOGO_URL, whatever the translator. Of two trees the component
    returns, the brand slots are the same when the configurations agree on
    filmStripOnly, SHOW_BRAND_WATERMARK and BRAND_WATERMARK_LINK, whatever
    the caller's default logo, and the powered-by slots are the same when
    they agree on SHOW_POWERED_BY. *)
Theorem slots_read_their_own_settings
    (interfaceConfig interfaceConfig' : InterfaceConfig)
    (t t' : string -> string) (defaultLogo defaultLogo' : JsVal)
    (store : gmap string JsVal) :
  (filmStripOnly interfaceConfig = filmStripOnly interfaceConfig' ->
   SHOW_JITSI_WATERMARK interfaceConfig
   = SHOW_JITSI_WATERMARK interfaceConfig' ->
   SHOW_JITSI_WATERMARK_FOR_GUESTS interfaceConfig
   = SHOW_JITSI_WATERMARK_FOR_GUESTS interfaceConfig' ->
   JITSI_WATERMARK_LINK interfaceConfig
   = JITSI_WATERMARK_LINK interfaceConfig' ->
   DEFAULT_LOGO_URL interfaceConfig = DEFAULT_LOGO_URL interfaceConfig' ->
   onSlot productSlot
     (ConnectedWatermarks interfaceConfig t defaultLogo store)
   = onSlot productSlot
       (ConnectedWatermarks interfaceConfig' t' defaultLogo store))
  /\ (filmStripOnly interfaceConfig = filmStripOnly interfaceConfig' ->
      SHOW_BRAND_WATERMARK interfaceConfig
      = SHOW_BRAND_WATERMARK interfaceConfig' ->
      BRAND_WATERMARK_LINK interfaceConfig
      = BRAND_WATERMARK_LINK interfaceConfig' ->
      forall tree tree',
        ConnectedWatermarks interfaceConfig t defaultLogo store
        = Normal tree ->
        ConnectedWatermarks interfaceConfig' t' defaultLogo' store
        = Normal tree' ->
        brandSlot tree = brandSlot tree')
  /\ (SHOW_POWERED_BY interfaceConfig = SHOW_POWERED_BY interfaceConfig' ->
      forall tree tree',
        ConnectedWatermarks interfaceConfig t defaultLogo store
        = Normal tree ->
        ConnectedWatermarks interfaceConfig' t defaultLogo' store
        = Normal tree' ->
        poweredBySlot tree = poweredBySlot tree').
Proof.
  split; [|split].
  - intros Hfilm Hshow HforGuests Hlink Hlogo.
    unfold onSlot, ConnectedWatermarks, _mapStateToProps, member.
    rewrite Hfilm, Hshow, HforGuests.
    repeat match goal with
           | |- context [toObject ?v] => destruct (toObject v)
           end; try reflexivity.
    cbn [mbind Completion_bind mret Completion_ret]. unfold render.
    match goal with
    | |- context [_renderJitsiWatermark interfaceConfig ?a] =>
        match goal with
        | |- context [_renderJitsiWatermark interfaceConfig' ?b] =>
            assert (_renderJitsiWatermark interfaceConfig a
                    = _renderJitsiWatermark interfaceConfig' b) as ->
        end
    end.
    { product_slot_form. now rewrite Hlink, Hlogo. }
    match goal with |- context [_renderJitsiWatermark ?c ?b] =>
      destruct (_renderJitsiWatermark c b) end; reflexivity.
  - intros Hfilm Hshow Hlink tree tree' Hc Hc'.
    apply connected_slots in Hc as (p & _ & -> & _).
    apply connected_slots in Hc' as (p' & _ & -> & _).
    rewrite !renderBrandWatermark_new. now rewrite Hfilm, Hshow, Hlink.
  - intros Hshow tree tree' Hc Hc'.
    apply connected_slots in Hc as (p & _ & _ & -> & Ht).
    apply connected_slots in Hc' as (p' & _ & _ & -> & Ht').
    rewrite !renderPoweredBy_new. now rewrite Hshow, Ht, Ht'.
Qed.

Lemma slots_read_their_own_settings_witness :
  filmStripOnly exampleConfig = filmStripOnly guestsOnlyConfig
  /\ SHOW_BRAND_WATERMARK exampleConfig
     = SHOW_BRAND_WATERMARK guestsOnlyConfig
  /\ BRAND_WATERMARK_LINK exampleConfig
     = BRAND_WATERMARK_LINK guestsOnlyConfig
  /\ exampleConfig <> guestsOnlyConfig
  /\ exists tree tree',
      ConnectedWatermarks exampleConfig exampleT JUndefined exampleStore
      = Normal tree
      /\ ConnectedWatermarks guestsOnlyConfig englishT (JStr "own.png")
           exampleStore
         = Normal tree'
      /\ brandSlot tree = brandSlot tree'.
Proof.
  do 3 (split; [reflexivity|]). split; [discriminate|].
  destruct (slots_read_their_own_settings exampleConfig guestsOnlyConfig
              exampleT englishT JUndefined (JStr "own.png") exampleStore)
    as (_ & Hbrand & _).
  eexists. eexists. split; [reflexivity|]. split; [reflexivity|].
  apply (Hbrand eq_refl eq_refl eq_refl); reflexivity.
Defined.

(** ** Construction-time settings *)

(** X8: the brand and powered-by slots are decided by the configuration the
    instance was constructed under, the product slot by the configuration
    in force when it renders. An instance built under one configuration
    and rendered, after any number of re-renders, under another renders the
    product slot of the second, throwing when a fresh instance under the
    second would; and a tree it returns shows the brand and powered-by
    slots of the first. *)
Theorem brand_and_powered_by_fixed_at_construction
    (atConstruction atRender : InterfaceConfig) (p0 p : Props)
    (history : list Props) :
  let this :=
    withProps (rerenders atRender (new atConstruction p0) history) p in
  onSlot productSlot (render atRender this)
  = _renderJitsiWatermark atRender (new atRender p)
  /\ (forall tree,
        render atRender this = Normal tree ->
        brandSlot tree = _renderBrandWatermark (new atConstruction p)
        /\ poweredBySlot tree = _renderPoweredBy (new atConstruction p)
        /\ _renderJitsiWatermark atRender (new atRender p)
           = Normal (productSlot tree)).
Proof.
  cbn zeta.
  assert (Hproduct :
    _renderJitsiWatermark atRender
      (withProps (rerenders atRender (new atConstruction p0) history) p)
    = _renderJitsiWatermark atRender (new atRender p)) by reflexivity.
  split.
  - unfold onSlot, render. rewrite Hproduct.
    destruct (_renderJitsiWatermark atRender (new atRender p)); reflexivity.
  - intros tree Hr. apply render_returns in Hr as (e & He & ->).
    rewrite Hproduct in He.
    unfold _renderBrandWatermark, _renderPoweredBy, withProps.
    cbn [state props]. rewrite rerenders_state. repeat split. exact He.
Qed.

Lemma brand_and_powered_by_fixed_at_construction_witness :
  exists tree,
    render exampleConfig
      (withProps (rerenders exampleConfig (new filmStripConfig exampleProps)
                    [exampleProps; exampleProps])
                 exampleProps)
    = Normal tree
    /\ brandSlot tree = Null
    /\ poweredBySlot tree = Null
    /\ visible (productSlot tree) = true.
Proof.
  eexists. split; [reflexivity|].
  destruct (brand_and_powered_by_fixed_at_construction filmStripConfig
              exampleConfig exampleProps exampleProps
              [exampleProps; exampleProps])
    as (_ & Hslots).
  destruct (Hslots _ eq_refl) as (Hb & Hpb & _).
  split; [exact Hb|]. split; [exact Hpb|]. reflexivity.
Defined.

(** ** Guests *)

Lemma hasSlices_withJwtField store jwt branding conference key v :
  hasSlices store jwt branding conference ->
  hasSlices (withJwtField store jwt key v)
            (setField jwt key v) branding conference.
Proof.
  intros (Hj & Hb & Hc). unfold hasSlices, withJwtField. get_simpl. auto.
Qed.

(** X7: isGuest can only add the product slot, never remove it. When
    SHOW_JITSI_WATERMARK is set or SHOW_JITSI_WATERMARK_FOR_GUESTS is not,
    the output is the same whatever isGuest is; and when the component
    returns a tree with the product slot shown, making the viewer a guest
    gives that same tree. *)
Theorem guest_only_adds interfaceConfig t defaultLogo
    (store jwt branding conference : gmap string JsVal) (v : option JsVal) :
  hasSlices store jwt branding conference ->
  (truthy (SHOW_JITSI_WATERMARK interfaceConfig) = true
   \/ truthy (SHOW_JITSI_WATERMARK_FOR_GUESTS interfaceConfig) = false ->
   ConnectedWatermarks interfaceConfig t defaultLogo
     (withJwtField store jwt "isGuest" v)
   = ConnectedWatermarks interfaceConfig t defaultLogo store)
  /\ (truthy (readOptional v) = true ->
      forall tree,
        ConnectedWatermarks interfaceConfig t defaultLogo store
        = Normal tree ->
        visible (productSlot tree) = true ->
        ConnectedWatermarks interfaceConfig t defaultLogo
          (withJwtField store jwt "isGuest" v)
        = Normal tree).
Proof.
  intros Hs.
  pose proof (connected_eq interfaceConfig t defaultLogo _ _ _ _ Hs)
    as Hbase.
  pose proof (connected_eq interfaceConfig t defaultLogo _ _ _ _
                (hasSlices_withJwtField _ _ _ _ "isGuest" v Hs))
    as Hguest.
  rewrite get_setField_eq in Hguest.
  split.
  - intros Hoff. rewrite Hbase, Hguest.
    apply render_product_only, renderJitsiWatermark_flag.
    rewrite !truthy_flag.
    destruct Hoff as [-> | ->]; [reflexivity|].
    now rewrite !andb_false_r.
  - intros Hv tree Hc Hshown.
    destruct (connected_returns interfaceConfig t defaultLogo _ _ _ _ Hs
                tree Hc) as (p & Hp & _ & _ & Hflag & _).
    apply renderJitsiWatermark_visible in Hp. cbn [props new] in Hp.
    rewrite Hshown in Hp. rewrite <- Hp in Hflag.
    rewrite <- Hc, Hbase, Hguest.
    apply render_product_only, renderJitsiWatermark_flag.
    symmetry in Hflag. unfold productShown in Hflag.
    rewrite !truthy_flag, !truthy_not, Hv, Hflag.
    revert Hflag.
    destruct (truthy (get jwt "isGuest")); [auto|].
    rewrite andb_false_l, orb_false_r.
    destruct (truthy (SHOW_JITSI_WATERMARK interfaceConfig)); [auto|].
    rewrite andb_false_r. cbn [orb]. intros ->. apply orb_true_r.
Qed.

Lemma guest_only_adds_witness :
  hasSlices exampleStore exampleJwt exampleBranding exampleConference
  /\ truthy (SHOW_JITSI_WATERMARK exampleConfig) = true
  /\ ConnectedWatermarks exampleConfig exampleT JUndefined
       (withJwtField exampleStore exampleJwt "isGuest" None)
     = ConnectedWatermarks exampleConfig exampleT JUndefined exampleStore.
Proof.
  split; [repeat split|]. split; [reflexivity|].
  destruct (guest_only_adds exampleConfig exampleT JUndefined exampleStore
              exampleJwt exampleBranding exampleConference None)
    as (Hany & _); [repeat split|].
  apply Hany. left. reflexivity.
Defined.
